(** * Shallow embedding of the VidBrain backend (classification ladder,
    rule-based classifier, URL parsing, category processors, extraction
    orchestrator) and proofs of its specified properties.

    Modelling conventions.
    - A Python [str] is modelled as a Rocq [string] holding its UTF-8 bytes;
      every pattern and keyword the code uses is ASCII, and [lower] and
      [strip] are modelled on ASCII characters.
    - A Python [float] is modelled by [pyfloat]: an exact rational for finite
      values, plus NaN and the two infinities ([json.loads] and [float()] can
      produce them).  The thresholds 0.7 / 0.6 / 0.5 are compared exactly; no
      binary64 value lies strictly between a threshold and its rounding, so
      [c > 0.7] has the same truth value on every float [c].
    - Values decoded by [json.loads] are modelled by [pyval]; a Python dict is
      an association list in insertion order.
    - A Python function that can raise returns [pyres A]: [Ok a] or
      [Raise exc]. *)

From Stdlib Require Import String Ascii List Bool Arith Lia ZArith QArith Qminmax.
From Stdlib Require Import Permutation Sorted.
Import ListNotations.
Set Warnings "-register-all,-abstract-large-number".
Open Scope list_scope.
Open Scope string_scope.
Open Scope nat_scope.

(** ** Python values, results and string primitives *)
Module Py.

Inductive pyfloat : Type :=
| Fin (q : Q)
| NaN
| PosInf
| NegInf.

Inductive pyval : Type :=
| PNone
| PBool (b : bool)
| PInt (z : Z)
| PFloat (f : pyfloat)
| PStr (s : string)
| PList (l : list pyval)
| PDict (d : list (string * pyval)).

Definition pydict := list (string * pyval).

Inductive pyres (A : Type) : Type :=
| Ok (a : A)
| Raise (exc : string).
Arguments Ok {A} a.
Arguments Raise {A} exc.

Definition bind {A B} (m : pyres A) (k : A -> pyres B) : pyres B :=
  match m with
  | Ok a => k a
  | Raise e => Raise e
  end.

Notation "x <- m ;; k" := (bind m (fun x => k))
  (at level 61, m at next level, right associativity).

(** [d.get(k)]: the first binding of [k]. *)
Fixpoint dict_get (d : pydict) (k : string) : option pyval :=
  match d with
  | [] => None
  | (k', v) :: d' => if String.eqb k k' then Some v else dict_get d' k
  end.

(** [d.get(k, default)] *)
Definition dict_get_default (d : pydict) (k : string) (dflt : pyval) : pyval :=
  match dict_get d k with
  | Some v => v
  | None => dflt
  end.

(** [d[k] = v]: an existing key keeps its position, a new key is appended. *)
Fixpoint dict_set (d : pydict) (k : string) (v : pyval) : pydict :=
  match d with
  | [] => [(k, v)]
  | (k', v') :: d' =>
      if String.eqb k k' then (k', v) :: d' else (k', v') :: dict_set d' k v
  end.

(** Python truthiness of a string, [s or t]. *)
Definition str_truthy (s : string) : bool :=
  match s with EmptyString => false | _ => true end.

(** [a or b] on [Optional[str]] values: the first non-empty string. *)
Definition opt_str_or (a : option string) (b : string) : string :=
  match a with
  | Some s => if str_truthy s then s else b
  | None => b
  end.

(** [s.lower()] on ASCII. *)
Definition ascii_lower (c : ascii) : ascii :=
  let n := nat_of_ascii c in
  if (65 <=? n) && (n <=? 90) then ascii_of_nat (n + 32) else c.

Fixpoint lower (s : string) : string :=
  match s with
  | EmptyString => EmptyString
  | String c s' => String (ascii_lower c) (lower s')
  end.

(** [s[:n]] *)
Definition take (n : nat) (s : string) : string := substring 0 n s.

(** [needle in hay] *)
Fixpoint contains (needle hay : string) : bool :=
  match hay with
  | EmptyString => String.prefix needle hay
  | String _ hay' => String.prefix needle hay || contains needle hay'
  end.

(** [c.isspace()] on ASCII: tab, LF, VT, FF, CR, the separators 0x1c-0x1f and
    space. *)
Definition is_space (c : ascii) : bool :=
  let n := nat_of_ascii c in
  ((9 <=? n) && (n <=? 13)) || ((28 <=? n) && (n <=? 32)).

Fixpoint lstrip (s : string) : string :=
  match s with
  | EmptyString => EmptyString
  | String c s' => if is_space c then lstrip s' else s
  end.

Fixpoint rev_str (s : string) (acc : string) : string :=
  match s with
  | EmptyString => acc
  | String c s' => rev_str s' (String c acc)
  end.

Definition rstrip (s : string) : string :=
  rev_str (lstrip (rev_str s EmptyString)) EmptyString.

(** [a < b] on finite floats. *)
Definition Qltb (a b : Q) : bool := negb (Qle_bool b a).

(** [s.strip()] *)
Definition strip (s : string) : string := rstrip (lstrip s).

End Py.

(** ** models/schemas.py *)
Module Schemas.
Import Py.

(** [VideoCategory(str, Enum)] *)
Inductive VideoCategory : Type :=
| MOVIE_LIST | SONG_LIST | COMEDY | RECIPE | EDUCATION | PRODUCT_REVIEW
| TRAVEL | NEWS | FITNESS | PODCAST | TUTORIAL | GAMING | VLOG | UNKNOWN.

Definition VideoCategory_eqb (a b : VideoCategory) : bool :=
  match a, b with
  | MOVIE_LIST, MOVIE_LIST | SONG_LIST, SONG_LIST | COMEDY, COMEDY
  | RECIPE, RECIPE | EDUCATION, EDUCATION | PRODUCT_REVIEW, PRODUCT_REVIEW
  | TRAVEL, TRAVEL | NEWS, NEWS | FITNESS, FITNESS | PODCAST, PODCAST
  | TUTORIAL, TUTORIAL | GAMING, GAMING | VLOG, VLOG | UNKNOWN, UNKNOWN => true
  | _, _ => false
  end.

(** [category.value] *)
Definition value (c : VideoCategory) : string :=
  match c with
  | MOVIE_LIST => "movie_list" | SONG_LIST => "song_list" | COMEDY => "comedy"
  | RECIPE => "recipe" | EDUCATION => "education"
  | PRODUCT_REVIEW => "product_review" | TRAVEL => "travel" | NEWS => "news"
  | FITNESS => "fitness" | PODCAST => "podcast" | TUTORIAL => "tutorial"
  | GAMING => "gaming" | VLOG => "vlog" | UNKNOWN => "unknown"
  end.

(** The members in declaration order (the closed enumerated set). *)
Definition all_categories : list VideoCategory :=
  [MOVIE_LIST; SONG_LIST; COMEDY; RECIPE; EDUCATION; PRODUCT_REVIEW; TRAVEL;
   NEWS; FITNESS; PODCAST; TUTORIAL; GAMING; VLOG; UNKNOWN].

(** [VideoCategory(v)]: lookup by value, [ValueError] otherwise. *)
Definition VideoCategory_of (v : pyval) : pyres VideoCategory :=
  match v with
  | PStr s =>
      match find (fun c => String.eqb (value c) s) all_categories with
      | Some c => Ok c
      | None => Raise "ValueError"
      end
  | _ => Raise "ValueError"
  end.

Record VideoMetadata : Type := {
  video_id : string;
  title : string;
  description : string;
  channel_name : string;
  channel_id : string;
  duration_seconds : Z;
  view_count : Z;
  like_count : option Z;
  tags : list string;
  thumbnail_url : string;
  published_at : string;
  category_id : string
}.

Record ExtractionResult : Type := {
  metadata : VideoMetadata;
  captions : option string;
  transcript : option string;
  key_frame_paths : list string;
  top_comments : list string;
  extraction_time_seconds : option Q
}.

Record ClassificationResult : Type := {
  cr_video_id : string;
  category : VideoCategory;
  confidence : Q;
  sub_category : option string;
  reasoning : string;
  alternative_categories : list string;
  model_used : string;
  classified_at : option string
}.

Fixpoint str_list (l : list pyval) : option (list string) :=
  match l with
  | [] => Some []
  | PStr s :: l' =>
      match str_list l' with Some r => Some (s :: r) | None => None end
  | _ :: _ => None
  end.

(** [ClassificationResult(...)]: pydantic validation of the fields;
    [confidence] carries [ge=0.0, le=1.0] (NaN and the infinities fail). *)
Definition mk_ClassificationResult (vid : string) (cat : VideoCategory)
    (conf : pyfloat) (sub : pyval) (reason : pyval) (alts : pyval)
    (model : string) (at_ : option string) : pyres ClassificationResult :=
  match conf with
  | Fin q =>
      if Qle_bool 0 q && Qle_bool q 1 then
        match sub, reason, alts with
        | (PNone | PStr _), PStr r, PList l =>
            match str_list l with
            | Some ls =>
                Ok {| cr_video_id := vid; category := cat; confidence := q;
                      sub_category := match sub with PStr s => Some s | _ => None end;
                      reasoning := r; alternative_categories := ls;
                      model_used := model; classified_at := at_ |}
            | None => Raise "ValidationError"
            end
        | _, _, _ => Raise "ValidationError"
        end
      else Raise "ValidationError"
  | _ => Raise "ValidationError"
  end.

End Schemas.

(** ** services/classifier.py: rule-based classifier *)
Module RuleBased.
Import Py Schemas.

Record keywords : Type := {
  strong : list string;
  medium : list string;
  weak : list string
}.

(** The [rules] dict of [rule_based_classify], in insertion order. *)
Definition rules : list (VideoCategory * keywords) := [
  (MOVIE_LIST, {| strong := ["top movies"; "best movies"; "must watch movies"; "movie list"; "films you"];
                  medium := ["movies of 20"; "greatest films"; "movie ranking"; "film ranking"];
                  weak := ["movies"; "cinema"; "film"] |});
  (SONG_LIST, {| strong := ["top songs"; "best songs"; "hit songs"; "song list"; "music compilation"];
                 medium := ["songs of 20"; "playlist"; "greatest hits"; "music ranking"];
                 weak := ["songs"; "music"; "hits"] |});
  (COMEDY, {| strong := ["stand up"; "standup"; "comedy special"; "comedian"];
              medium := ["comedy"; "funny"; "sketch"; "skit"];
              weak := ["laugh"; "humor"; "joke"] |});
  (RECIPE, {| strong := ["recipe"; "how to cook"; "cooking tutorial"; "how to make"];
              medium := ["cooking"; "baking"; "ingredients"; "prepare"];
              weak := ["food"; "kitchen"; "meal"] |});
  (EDUCATION, {| strong := ["tutorial"; "how to"; "learn"; "explained"; "course"];
                 medium := ["education"; "lecture"; "teaching"; "lesson"];
                 weak := ["guide"; "tips"; "knowledge"] |});
  (PRODUCT_REVIEW, {| strong := ["review"; "unboxing"; "vs comparison"; "hands on"];
                      medium := ["product"; "test"; "comparison"];
                      weak := ["worth it"; "should you buy"] |});
  (GAMING, {| strong := ["gameplay"; "walkthrough"; "let's play"; "gaming"];
              medium := ["playthrough"; "game"; "stream"];
              weak := ["playing"; "gamer"] |});
  (VLOG, {| strong := ["vlog"; "day in my life"; "what i eat in a day"];
            medium := ["daily vlog"; "my day"; "come with me"];
            weak := ["lifestyle"; "routine"] |});
  (FITNESS, {| strong := ["workout"; "exercise"; "fitness routine"];
               medium := ["training"; "gym"; "muscle"];
               weak := ["health"; "fit"] |});
  (TRAVEL, {| strong := ["travel vlog"; "travel guide"; "things to do in"];
              medium := ["visit"; "destination"; "trip"];
              weak := ["travel"; "vacation"] |});
  (PODCAST, {| strong := ["podcast"; "interview with"; "ep "; "episode"];
               medium := ["conversation"; "discussion"; "talk"];
               weak := ["chat"] |});
  (TUTORIAL, {| strong := ["tutorial"; "how to"; "step by step"];
                medium := ["guide"; "learn"; "diy"];
                weak := ["tips"; "tricks"] |})
].

(** [sum(w for kw in kws if kw in text)] *)
Definition tier_score (w : nat) (kws : list string) (text : string) : nat :=
  w * length (filter (fun kw => contains kw text) kws).

Definition category_score (k : keywords) (text : string) : nat :=
  tier_score 5 (strong k) text + tier_score 2 (medium k) text
  + tier_score 1 (weak k) text.

(** The search text: [f"{title} {desc} {transcript}"]. *)
Definition search_text (x : ExtractionResult) : string :=
  let m := metadata x in
  let t := take 1000 (lower (opt_str_or (captions x) (opt_str_or (transcript x) ""))) in
  lower (title m) ++ " " ++ lower (description m) ++ " " ++ t.

(** The [scores] dict, in the order of [rules]. *)
Definition scores (text : string) : list (VideoCategory * nat) :=
  map (fun '(c, k) => (c, category_score k text)) rules.

(** [max(scores.values())] on a non-empty list. *)
Definition max_score (s : list (VideoCategory * nat)) : nat :=
  fold_left (fun m p => Nat.max m (snd p)) s 0.

(** [max(scores, key=scores.get)]: the first key with a maximal value. *)
Definition argmax (s : list (VideoCategory * nat)) : option (VideoCategory * nat) :=
  match s with
  | [] => None
  | p :: s' =>
      Some (fold_left (fun best q => if snd best <? snd q then q else best) s' p)
  end.

(** [sorted(scores.items(), key=lambda x: x[1], reverse=True)]: a stable
    sort by decreasing score (equal scores keep their order). *)
Fixpoint insert_desc (p : VideoCategory * nat) (l : list (VideoCategory * nat))
  : list (VideoCategory * nat) :=
  match l with
  | [] => [p]
  | q :: l' => if snd p <=? snd q then q :: insert_desc p l' else p :: l
  end.

Definition sort_desc (l : list (VideoCategory * nat)) : list (VideoCategory * nat) :=
  fold_left (fun acc p => insert_desc p acc) l [].

(** [[cat.value for cat, score in sorted_categories[1:3] if score > 0]] *)
Definition alternatives (s : list (VideoCategory * nat)) : list string :=
  map (fun p => value (fst p))
      (filter (fun p => 0 <? snd p) (firstn 2 (skipn 1 (sort_desc s)))).

(** Decimal rendering of a non-negative int, as in an f-string. *)
Fixpoint digits (fuel n : nat) (acc : string) : string :=
  match fuel with
  | 0 => acc
  | S f =>
      let acc' := String (ascii_of_nat (48 + n mod 10)) acc in
      if n <? 10 then acc' else digits f (n / 10) acc'
  end.

Definition nat_str (n : nat) : string := digits (S n) n EmptyString.

(** [not scores] *)
Definition is_empty {A} (l : list A) : bool :=
  match l with [] => true | _ => false end.

(** [rule_based_classify(extraction)]; [now] is the clock reading
    [datetime.utcnow().isoformat() + "Z"]. *)
Definition rule_based_classify (x : ExtractionResult) (now : string)
  : pyres ClassificationResult :=
  let text := search_text x in
  let sc := scores text in
  if is_empty sc || (max_score sc =? 0) then
    mk_ClassificationResult (video_id (metadata x)) UNKNOWN (Fin (3 # 10))
      PNone (PStr "No matching keywords found in rule-based classification")
      (PList []) "rule-based" (Some now)
  else
    match argmax sc with
    | None => Raise "ValueError"
    | Some (best_category, best_score) =>
        let alts := alternatives sc in
        let conf := Qmin (6 # 10) (Z.of_nat best_score # 15) in
        mk_ClassificationResult (video_id (metadata x)) best_category (Fin conf)
          PNone (PStr ("Rule-based classification (keyword score: "
                       ++ nat_str best_score ++ ")"))
          (PList (map PStr alts)) "rule-based" (Some now)
    end.

End RuleBased.

(** ** services/classifier.py: the Gemini classifier and the fallback ladder *)
Module Ladder.
Import Py Schemas RuleBased.

(** Outcome of [self.model.generate_content(...)] followed by
    [response.text]: the text, or the exception raised. *)
Inductive gen_outcome : Type :=
| GenRaise (exc : string)
| GenText (text : string).

(** [config/gemini_models.py]: [RecommendedModels.CLASSIFICATION] and
    [RecommendedModels.CLASSIFICATION_FALLBACK]. *)
Definition PRIMARY_MODEL : string := "gemini-2.5-flash".
Definition FALLBACK_MODEL : string := "gemini-2.5-pro".

Section Classifier.

(** [os.getenv("GOOGLE_API_KEY")] *)
Variable GOOGLE_API_KEY : option string.
(** The Gemini service: model name, [include_frames] and the extraction
    determine the request; the service answers with a text or raises. *)
Variable generate : string -> bool -> ExtractionResult -> gen_outcome.
(** Fence stripping followed by [json.loads]; [None] when it raises. *)
Variable load_json : string -> option pyval.
(** [float(s)] on a string; [None] when it raises [ValueError]. *)
Variable str_to_float : string -> option pyfloat.

Definition key_configured : bool :=
  match GOOGLE_API_KEY with Some k => str_truthy k | None => false end.

(** [float(v)] *)
Definition py_float (v : pyval) : pyres pyfloat :=
  match v with
  | PInt z => Ok (Fin (inject_Z z))
  | PFloat f => Ok f
  | PBool b => Ok (Fin (if b then 1 else 0))
  | PStr s => match str_to_float s with Some f => Ok f | None => Raise "ValueError" end
  | _ => Raise "TypeError"
  end.

(** [VideoClassifier._parse_response] *)
Definition parse_response (model_name : string) (text : string)
    (x : ExtractionResult) (now : string) : pyres ClassificationResult :=
  match load_json text with
  | None => Raise "ValueError"
  | Some (PDict data) =>
      let cat :=
        match VideoCategory_of (dict_get_default data "category" (PStr "unknown")) with
        | Ok c => c
        | Raise _ => UNKNOWN
        end in
      conf <- py_float (dict_get_default data "confidence" (PFloat (Fin (1 # 2))));;
      mk_ClassificationResult (video_id (metadata x)) cat conf
        (dict_get_default data "sub_category" PNone)
        (dict_get_default data "reasoning" (PStr "No reasoning provided"))
        (dict_get_default data "alternative_categories" (PList []))
        model_name (Some now)
  | Some _ => Raise "AttributeError"
  end.

(** [VideoClassifier(model_name).classify_video(extraction, include_frames)]:
    without a key the constructor leaves [self.model = None] and
    [classify_video] raises [ValueError]. *)
Definition classify_video (model_name : string) (include_frames : bool)
    (x : ExtractionResult) (now : string) : pyres ClassificationResult :=
  if negb key_configured then Raise "ValueError"
  else
    match generate model_name include_frames x with
    | GenRaise e => Raise e
    | GenText s => parse_response model_name s x now
    end.

(** The AI calls made by the ladder, in order: (model, include_frames). *)
Definition call := (string * bool)%type.

(** One [try: result = ...; if result.confidence > thr: return result
    except Exception: ...] block, followed by the rest of the ladder. *)
Definition try_rung (model_name : string) (include_frames : bool) (thr : Q)
    (x : ExtractionResult) (now : string)
    (rest : pyres ClassificationResult * list call)
  : pyres ClassificationResult * list call :=
  match classify_video model_name include_frames x now with
  | Ok r =>
      if Qltb thr (confidence r) then (Ok r, [(model_name, include_frames)])
      else (fst rest, (model_name, include_frames) :: snd rest)
  | Raise _ => (fst rest, (model_name, include_frames) :: snd rest)
  end.

(** [classify_with_fallback(extraction)]: the result and the AI calls made. *)
Definition classify_with_fallback (x : ExtractionResult) (now : string)
  : pyres ClassificationResult * list call :=
  try_rung PRIMARY_MODEL true (7 # 10) x now
  (try_rung PRIMARY_MODEL false (6 # 10) x now
  (try_rung FALLBACK_MODEL true (7 # 10) x now
  (try_rung FALLBACK_MODEL false (5 # 10) x now
  (rule_based_classify x now, [])))).

End Classifier.
End Ladder.

(** ** utils/video_utils.py *)
Module VideoUtils.
Import Py.

(** [[a-zA-Z0-9_-]] *)
Definition is_idchar (c : ascii) : bool :=
  let n := nat_of_ascii c in
  ((97 <=? n) && (n <=? 122)) || ((65 <=? n) && (n <=? 90))
  || ((48 <=? n) && (n <=? 57)) || (n =? 95) || (n =? 45).

Fixpoint all_chars (p : ascii -> bool) (s : string) : bool :=
  match s with
  | EmptyString => true
  | String c s' => p c && all_chars p s'
  end.

(** [re.search(lit + r'([a-zA-Z0-9_-]{11})', s).group(1)]: the leftmost
    occurrence of the literal followed by 11 identifier characters. *)
Fixpoint search_id (lit s : string) : option string :=
  let cand := substring (String.length lit) 11 s in
  if String.prefix lit s && (String.length cand =? 11) && all_chars is_idchar cand
  then Some cand
  else match s with
       | EmptyString => None
       | String _ s' => search_id lit s'
       end.

Definition newline : ascii := ascii_of_nat 10.

(** [re.match(r'^[a-zA-Z0-9_-]{11}$', s)]: [$] also matches just before a
    final newline. *)
Definition match_id11 (s : string) : bool :=
  ((String.length s =? 11) && all_chars is_idchar s)
  || ((String.length s =? 12) && all_chars is_idchar (substring 0 11 s)
      && (String.eqb (substring 11 1 s) (String newline EmptyString))).

(** [s.find(c)] as an option. *)
Fixpoint find_char (c : ascii) (s : string) : option nat :=
  match s with
  | EmptyString => None
  | String c' s' =>
      if Ascii.eqb c c' then Some 0
      else match find_char c s' with Some i => Some (S i) | None => None end
  end.

(** [s.split(c, 1)]: the part before and after the first [c]. *)
Definition split1 (c : ascii) (s : string) : option (string * string) :=
  match find_char c s with
  | Some i => Some (substring 0 i s, substring (S i) (String.length s) s)
  | None => None
  end.

Fixpoint split_all (c : ascii) (s : string) (acc : string) : list string :=
  match s with
  | EmptyString => [acc]
  | String c' s' =>
      if Ascii.eqb c c' then acc :: split_all c s' EmptyString
      else split_all c s' (acc ++ String c' EmptyString)
  end.

(** [s.split(c)] *)
Definition split_on (c : ascii) (s : string) : list string := split_all c s EmptyString.

Definition chr (n : nat) : ascii := ascii_of_nat n.

(** [url.replace(b, "")] for the bytes tab, CR and LF that [urlsplit] drops. *)
Fixpoint remove_unsafe (s : string) : string :=
  match s with
  | EmptyString => EmptyString
  | String c s' =>
      let n := nat_of_ascii c in
      if (n =? 9) || (n =? 10) || (n =? 13) then remove_unsafe s' else String c (remove_unsafe s')
  end.

Definition is_ascii_alpha (c : ascii) : bool :=
  let n := nat_of_ascii c in ((97 <=? n) && (n <=? 122)) || ((65 <=? n) && (n <=? 90)).

(** [scheme_chars]: letters, digits, '+', '-', '.' *)
Definition is_scheme_char (c : ascii) : bool :=
  let n := nat_of_ascii c in
  is_ascii_alpha c || ((48 <=? n) && (n <=? 57)) || (n =? 43) || (n =? 45) || (n =? 46).

(** Index of the first of '/', '?', '#' ([_splitnetloc]). *)
Fixpoint netloc_end (s : string) : nat :=
  match s with
  | EmptyString => 0
  | String c s' =>
      let n := nat_of_ascii c in
      if (n =? 47) || (n =? 63) || (n =? 35) then 0 else S (netloc_end s')
  end.

Section UrlSplit.
(** [_check_bracketed_netloc] (IP-address validation of a bracketed host):
    [true] when it does not raise. *)
Variable check_bracketed_netloc : string -> bool.

(** [urlparse(url).query], or the [ValueError] of [urlsplit]. *)
Definition urlsplit_query (url : string) : pyres string :=
  let url := remove_unsafe url in
  let url :=
    match find_char ":" url, url with
    | Some i, String c0 _ =>
        if (0 <? i) && is_ascii_alpha c0 && all_chars is_scheme_char (substring 0 i url)
        then substring (S i) (String.length url) url
        else url
    | _, _ => url
    end in
  let netloc_rest :=
    if String.prefix "//" url then
      let r := substring 2 (String.length url) url in
      let k := netloc_end r in
      Some (substring 0 k r, substring k (String.length r) r)
    else None in
  let check :=
    match netloc_rest with
    | Some (netloc, _) =>
        let lb := contains "[" netloc in
        let rb := contains "]" netloc in
        if (lb && negb rb) || (rb && negb lb) then false
        else if lb && rb then check_bracketed_netloc netloc
        else true
    | None => true
    end in
  if negb check then Raise "ValueError"
  else
    let rest := match netloc_rest with Some (_, r) => r | None => url end in
    let rest := match split1 "#" rest with Some (r, _) => r | None => rest end in
    match split1 "?" rest with
    | Some (_, q) => Ok q
    | None => Ok EmptyString
    end.
End UrlSplit.

Definition hex_val (c : ascii) : option nat :=
  let n := nat_of_ascii c in
  if (48 <=? n) && (n <=? 57) then Some (n - 48)
  else if (97 <=? n) && (n <=? 102) then Some (n - 87)
  else if (65 <=? n) && (n <=? 70) then Some (n - 55)
  else None.

(** [unquote]: %XX escapes decoded to bytes, other text unchanged. *)
Fixpoint unquote (s : string) : string :=
  match s with
  | EmptyString => EmptyString
  | String c s' =>
      let keep := String c (unquote s') in
      if Ascii.eqb c "%" then
        match s' with
        | String h1 (String h2 s'') =>
            match hex_val h1, hex_val h2 with
            | Some a, Some b => String (ascii_of_nat (16 * a + b)) (unquote s'')
            | _, _ => keep
            end
        | _ => keep
        end
      else keep
  end.

(** [s.replace('+', ' ')] *)
Fixpoint plus_to_space (s : string) : string :=
  match s with
  | EmptyString => EmptyString
  | String c s' => String (if Ascii.eqb c "+" then " "%char else c) (plus_to_space s')
  end.

(** [parse_qsl(qs)] with its defaults (separator '&', blank values dropped). *)
Definition parse_qsl (qs : string) : list (string * string) :=
  flat_map (fun nv =>
    if negb (str_truthy nv) then []
    else match split1 "=" nv with
         | None => []
         | Some (n, v) =>
             if str_truthy v then [(unquote (plus_to_space n), unquote (plus_to_space v))]
             else []
         end) (split_on "&" qs).

(** [parse_qs(qs)['v'][0]] when ['v' in parse_qs(qs)]. *)
Definition first_value (key : string) (qs : string) : option string :=
  match find (fun p => String.eqb (fst p) key) (parse_qsl qs) with
  | Some (_, v) => Some v
  | None => None
  end.

Section Extract.
Variable check_bracketed_netloc : string -> bool.

(** [extract_video_id(url)] *)
Definition extract_video_id (url0 : string) : pyres string :=
  if negb (str_truthy url0) then Raise "ValueError" else
  let url := strip url0 in
  match (if contains "youtu.be/" url then search_id "youtu.be/" url else None) with
  | Some id => Ok id
  | None =>
  match (if contains "/shorts/" url then search_id "/shorts/" url else None) with
  | Some id => Ok id
  | None =>
  match (if contains "/embed/" url then search_id "/embed/" url else None) with
  | Some id => Ok id
  | None =>
  match (if contains "/v/" url then search_id "/v/" url else None) with
  | Some id => Ok id
  | None =>
  if contains "youtube.com" url || contains "m.youtube.com" url then
    q <- urlsplit_query check_bracketed_netloc url ;;
    match first_value "v" q with
    | Some vid => if match_id11 vid then Ok vid else Raise "ValueError"
    | None => Raise "ValueError"
    end
  else Raise "ValueError"
  end end end end.
End Extract.

(** [validate_video_id(video_id)] *)
Definition validate_video_id (video_id : string) : bool :=
  if negb (str_truthy video_id) then false else match_id11 video_id.

End VideoUtils.

(** ** services/processors: default.py, recipe.py, movie_list.py *)
Module Processors.
Import Py Schemas Ladder.

(** [BaseProcessor.get_text_content]:
    [captions or transcript or metadata.description or ""]. *)
Definition get_text_content (x : ExtractionResult) : string :=
  opt_str_or (captions x) (opt_str_or (transcript x) (description (metadata x))).

(** [s[n:]] *)
Definition drop (n : nat) (s : string) : string := substring n (String.length s - n) s.

(** [re.search(r'```$', s)] on a string without a trailing line feed. *)
Definition ends_with_fence (s : string) : bool :=
  (3 <=? String.length s) && String.eqb (drop (String.length s - 3) s) "```".

(** The markdown clean-up shared by the three [_parse_response] methods:
    strip, [re.sub(r'^```json\s*', '', .)], [re.sub(r'^```\s*', '', .)],
    [re.sub(r'\s*```$', '', .)], strip. *)
Definition clean_fences (response_text : string) : string :=
  let c := strip response_text in
  let c := if String.prefix "```json" c then lstrip (drop 7 c) else c in
  let c := if String.prefix "```" c then lstrip (drop 3 c) else c in
  let c := if ends_with_fence c then rstrip (take (String.length c - 3) c) else c in
  strip c.

(** Python truthiness of a JSON value. *)
Definition py_truthy (v : pyval) : bool :=
  match v with
  | PNone => false
  | PBool b => b
  | PInt z => negb (Z.eqb z 0)
  | PFloat (Fin q) => negb (Qeq_bool q 0)
  | PFloat _ => true
  | PStr s => str_truthy s
  | PList l => match l with [] => false | _ => true end
  | PDict d => match d with [] => false | _ => true end
  end.

Definition is_str (v : option pyval) : bool :=
  match v with Some (PStr _) => true | _ => false end.
Definition is_list (v : option pyval) : bool :=
  match v with Some (PList _) => true | _ => false end.
Definition is_dict (v : option pyval) : bool :=
  match v with Some (PDict _) => true | _ => false end.
(** [isinstance(v, int)]: [bool] is a subclass of [int]. *)
Definition is_int (v : option pyval) : bool :=
  match v with Some (PInt _) | Some (PBool _) => true | _ => false end.
(** [v in [s1, ..., sn]] for string literals. *)
Definition in_strs (v : option pyval) (l : list string) : bool :=
  match v with Some (PStr s) => existsb (String.eqb s) l | _ => false end.

(** [if cond(d.get(k)): d[k] = v] *)
Definition repair (cond : option pyval -> bool) (k : string) (v : pyval) (d : pydict) : pydict :=
  if cond (dict_get d k) then d else dict_set d k v.

Section Processors.
Variable GOOGLE_API_KEY : option string.
(** [genai.GenerativeModel(...)] in a processor's [__init__] succeeds. *)
Variable model_init_ok : string -> bool.
(** [model.generate_content(prompt).text] (or its exception) for the
    processor named by the first argument; the prompt is built from the
    extraction record. *)
Variable generate_content : string -> ExtractionResult -> gen_outcome.
(** [json.loads]; [None] is a [JSONDecodeError]. *)
Variable load_json : string -> option pyval.

(** [self.model is not None] for [DefaultProcessor] and [RecipeProcessor]. *)
Definition has_model (name : string) : bool :=
  key_configured GOOGLE_API_KEY && model_init_ok name.

(** *** default.py *)
Definition default_minimal_response (text_content : string) : pydict :=
  [("type", PStr "general");
   ("summary", PStr "Summary unavailable - AI processing failed or API key not configured");
   ("key_points", PList []);
   ("topics", PList []);
   ("sentiment", PStr "neutral");
   ("transcript", PStr text_content)].

Definition default_parse_response (response_text original_text : string) : pydict :=
  match load_json (clean_fences response_text) with
  | Some (PDict result) =>
      repair is_str "transcript" (PStr original_text)
      (repair (fun v => in_strs v ["positive"; "negative"; "neutral"]) "sentiment" (PStr "neutral")
      (repair is_list "topics" (PList [])
      (repair is_list "key_points" (PList [])
      (repair is_str "summary" (PStr "Summary unavailable")
      (repair is_str "type" (PStr "general") result)))))
  (* [JSONDecodeError], or [AttributeError] of [.get] on a non-dict *)
  | _ => default_minimal_response original_text
  end.

Definition default_process (x : ExtractionResult) : pydict :=
  let text_content := get_text_content x in
  if negb (has_model "default") then default_minimal_response text_content
  else match generate_content "default" x with
       | GenRaise _ => default_minimal_response text_content
       | GenText t => default_parse_response t text_content
       end.

(** *** recipe.py *)
Definition nutrition_default : pyval :=
  PDict [("calories", PInt 0); ("protein", PStr "Not available");
         ("carbs", PStr "Not available"); ("fat", PStr "Not available")].

Definition recipe_minimal_response (video_title text_content : string) : pydict :=
  [("type", PStr "recipe");
   ("dish_name", PStr video_title);
   ("cuisine", PStr "Unknown");
   ("prep_time", PStr "Not specified");
   ("cook_time", PStr "Not specified");
   ("servings", PInt 0);
   ("difficulty", PStr "medium");
   ("ingredients", PList []);
   ("steps", PList []);
   ("tips", PList []);
   ("nutrition_estimate", nutrition_default);
   ("transcript_completeness", PStr (if negb (str_truthy text_content) then "visual_only" else "partial"));
   ("error", PStr "AI processing failed or API key not configured")].

Definition recipe_parse_response (response_text video_title original_text : string) : pydict :=
  match load_json (clean_fences response_text) with
  | Some (PDict result) =>
      let r := dict_set result "type" (PStr "recipe") in
      let r := repair (fun v => match v with Some (PStr s) => str_truthy s | _ => false end)
                 "dish_name" (PStr video_title) r in
      let r := repair is_str "cuisine" (PStr "Unknown") r in
      let r := repair is_str "prep_time" (PStr "Not specified") r in
      let r := repair is_str "cook_time" (PStr "Not specified") r in
      let r := repair is_int "servings" (PInt 0) r in
      let r := repair (fun v => in_strs v ["easy"; "medium"; "hard"]) "difficulty" (PStr "medium") r in
      let r := repair is_list "ingredients" (PList []) r in
      let r := repair is_list "steps" (PList []) r in
      let r := repair is_list "tips" (PList []) r in
      let r := repair is_dict "nutrition_estimate" nutrition_default r in
      repair (fun v => match v with Some v => py_truthy v | None => false end)
        "transcript_completeness"
        (PStr (if str_truthy original_text then "complete" else "visual_only")) r
  (* [JSONDecodeError], or [TypeError] of [result["type"] = ...] on a non-dict *)
  | _ => recipe_minimal_response video_title original_text
  end.

Definition recipe_process (x : ExtractionResult) : pydict :=
  let text_content := take 8000 (get_text_content x) in
  let video_title := title (metadata x) in
  if negb (has_model "recipe") then recipe_minimal_response video_title text_content
  else match generate_content "recipe" x with
       | GenRaise _ => recipe_minimal_response video_title text_content
       | GenText t => recipe_parse_response t video_title text_content
       end.

End Processors.
End Processors.

(** *** movie_list.py *)
Module MovieList.
Import Py Schemas Ladder Processors.

(** One entry of [_parse_movie_response]'s [validated] list. *)
Record raw_movie : Type := mk_raw_movie {
  rm_title : string;
  rm_year : option Z;
  rm_rank : nat
}.

(** The dict [{"title": ..., "year": ..., "rank": ...}]. *)
Definition raw_dict (m : raw_movie) : pydict :=
  [("title", PStr (rm_title m));
   ("year", match rm_year m with Some y => PInt y | None => PNone end);
   ("rank", PInt (Z.of_nat (rm_rank m)))].

Section MovieList.
Variable GOOGLE_API_KEY : option string.
Variable generate_content : string -> ExtractionResult -> gen_outcome.
Variable load_json : string -> option pyval.
(** [str(v)] for a non-string JSON value. *)
Variable py_str : pyval -> string.
(** [int(s)] on a string; [None] is a [ValueError]. *)
Variable str_to_int : string -> option Z.
(** [enrich_movie_with_tmdb(title, year)] for the entry at the given index
    of [raw_movies]: a dict, or [None] (it catches every exception). *)
Variable enrich_movie_with_tmdb : nat -> string -> option Z -> option pydict.

(** [int(year) if year is not None else None], [None] when [int] raises. *)
Definition parse_year (v : option pyval) : option Z :=
  match v with
  | Some (PInt z) => Some z
  | Some (PBool b) => Some (if b then 1%Z else 0%Z)
  | Some (PFloat (Fin q)) => Some (Z.quot (Qnum q) (Zpos (Qden q)))
  | Some (PStr s) => str_to_int s
  | _ => None
  end.

(** The loop [for i, m in enumerate(movies, 1)]. *)
Fixpoint validate_movies (i : nat) (movies : list pyval) : list raw_movie :=
  match movies with
  | [] => []
  | PDict m :: rest =>
      match dict_get m "title" with
      | Some t =>
          let t := match t with PStr s => s | v => py_str v end in
          mk_raw_movie (strip t) (parse_year (dict_get m "year")) i
            :: validate_movies (S i) rest
      | None => validate_movies (S i) rest
      end
  | _ :: rest => validate_movies (S i) rest
  end.

Definition parse_movie_response (response_text : string) : list raw_movie :=
  match load_json (clean_fences response_text) with
  | Some (PList movies) => validate_movies 1 movies
  | _ => []
  end.

(** [_extract_movies]: [self.model] is set exactly when the key is. *)
Definition extract_movies (x : ExtractionResult) : list raw_movie :=
  if negb (key_configured GOOGLE_API_KEY) then []
  else match generate_content "movie_list" x with
       | GenRaise _ => []
       | GenText t => parse_movie_response t
       end.

(** One pair of [zip(chunk, results)]. *)
Definition combine_entry (raw : raw_movie) (enriched : option pydict) : pydict :=
  match enriched with
  | Some ((_ :: _) as e) => dict_set e "rank" (PInt (Z.of_nat (rm_rank raw)))
  | _ => dict_set (raw_dict raw) "tmdb_found" (PBool false)
  end.

Definition chunk_size : nat := 5.

(** [range(0, n, chunk_size)] *)
Definition chunk_starts (n : nat) : list nat :=
  map (fun k => chunk_size * k) (seq 0 ((n + chunk_size - 1) / chunk_size)).

(** One iteration of the chunk loop: [asyncio.gather] returns the results
    in the order of the tasks. *)
Definition process_chunk (raw_movies : list raw_movie) (i : nat) : list pydict :=
  let chunk := firstn chunk_size (skipn i raw_movies) in
  let results := map (fun jm => enrich_movie_with_tmdb (i + fst jm) (rm_title (snd jm)) (rm_year (snd jm)))
                   (combine (seq 0 (length chunk)) chunk) in
  map (fun p => combine_entry (fst p) (snd p)) (combine chunk results).

Definition enrich_all (raw_movies : list raw_movie) : list pydict :=
  flat_map (process_chunk raw_movies) (chunk_starts (length raw_movies)).

Definition movie_process (x : ExtractionResult) : pydict :=
  let raw_movies := extract_movies x in
  match raw_movies with
  | [] => [("type", PStr "movie_list"); ("movies", PList []); ("count", PInt 0);
           ("extraction_method", PStr "failed")]
  | _ =>
      let enriched_movies := enrich_all raw_movies in
      [("type", PStr "movie_list");
       ("movies", PList (map PDict enriched_movies));
       ("count", PInt (Z.of_nat (length enriched_movies)));
       ("extraction_method",
         PStr (match key_frame_paths x with [] => "text_only" | _ => "multimodal" end))]
  end.

End MovieList.
End MovieList.

(** ** services/youtube_extractor.py and services/transcriber.py *)
Module Extractor.
Import Py Schemas VideoUtils.

(** [s.replace(pat, '')] for a non-empty [pat]: [skip] counts the characters
    of an occurrence still to be dropped. *)
Fixpoint remove_from (pat : string) (skip : nat) (s : string) : string :=
  match s with
  | EmptyString => EmptyString
  | String c s' =>
      match skip with
      | S k => remove_from pat k s'
      | O =>
          if String.prefix pat s then remove_from pat (String.length pat - 1) s'
          else String c (remove_from pat 0 s')
      end
  end.

Definition remove_all (pat s : string) : string := remove_from pat 0 s.

(** [s.isdigit()] on ASCII. *)
Definition is_digit_str (s : string) : bool :=
  str_truthy s && all_chars (fun c => (48 <=? nat_of_ascii c) && (nat_of_ascii c <=? 57)) s.

(** The filter of the VTT clean-up loop in [get_captions]. *)
Definition keep_line (line : string) : bool :=
  str_truthy (strip line) && negb (String.prefix "WEBVTT" line)
  && negb (contains "-->" line) && negb (is_digit_str (strip line)).

Definition clean_line (line : string) : string :=
  strip (remove_all "</c>" (remove_all "<c>" line)).

(** [cleaned_lines] for the text of a caption file. *)
Definition cleaned_lines (caption_text : string) : list string :=
  map clean_line (filter keep_line (split_on newline caption_text)).

(** [' '.join(cleaned_lines) if cleaned_lines else None] *)
Definition join_captions (cleaned : list string) : option string :=
  match cleaned with
  | [] => None
  | _ => Some (String.concat " " cleaned)
  end.

(** [Optional[str]] truthiness. *)
Definition opt_truthy (s : option string) : bool :=
  match s with Some t => str_truthy t | None => false end.

(** [transcribe_audio]: [result.get("text", "").strip()], [None] when empty;
    [whisper] is the raw text of the model, [None] when it raised or the
    file is missing. *)
Definition transcribe_audio (whisper : option string) : option string :=
  match whisper with
  | Some t => let s := strip t in if str_truthy s then Some s else None
  | None => None
  end.

Section Extractor.
Variable check_bracketed_netloc : string -> bool.
(** [get_metadata(video_id)]: [YouTubeAPIError] and the like propagate. *)
Variable get_metadata : string -> pyres VideoMetadata.
(** The text of the first [<video_id>*.vtt] file written by yt-dlp, or
    [None] when there is none or the run or the read raised. *)
Variable caption_file_text : string -> option string.
(** [caption_file.unlink()] succeeds. *)
Variable caption_unlink_ok : string -> bool.
(** [download_audio(video_id)] ([None] also for a raised exception, which
    [extract_all] catches the same way). *)
Variable download_audio : string -> option string.
(** Whisper's raw output for an audio path. *)
Variable whisper_text : string -> option string.
Variable key_frames : string -> list string.
Variable comments : string -> list string.
Variable extraction_time : Q.

(** [get_captions(video_id)] *)
Definition get_captions (video_id : string) : option string :=
  match caption_file_text video_id with
  | None => None
  | Some caption_text =>
      if caption_unlink_ok video_id then join_captions (cleaned_lines caption_text) else None
  end.

(** [extract_all(youtube_url)] *)
Definition extract_all (youtube_url : string) : pyres ExtractionResult :=
  video_id <- extract_video_id check_bracketed_netloc youtube_url ;;
  md <- get_metadata video_id ;;
  let captions := get_captions video_id in
  let transcript :=
    if negb (opt_truthy captions) then
      match download_audio video_id with
      | Some audio_path =>
          if str_truthy audio_path then transcribe_audio (whisper_text audio_path) else None
      | None => None
      end
    else None in
  Ok {| metadata := md; captions := captions; transcript := transcript;
        key_frame_paths := key_frames video_id; top_comments := comments video_id;
        extraction_time_seconds := Some extraction_time |}.
End Extractor.

End Extractor.

(** ** config/gemini_models.py *)
Module Config.
Import Py.

(** [GeminiModel(str, Enum)] *)
Inductive GeminiModel : Type :=
| GEMINI_3_PRO_PREVIEW | GEMINI_3_PRO_IMAGE_PREVIEW | GEMINI_3_FLASH_PREVIEW
| GEMINI_2_5_FLASH | GEMINI_2_5_FLASH_PREVIEW | GEMINI_2_5_FLASH_IMAGE
| GEMINI_2_5_FLASH_LIVE | GEMINI_2_5_FLASH_TTS
| GEMINI_2_5_FLASH_LITE | GEMINI_2_5_FLASH_LITE_PREVIEW
| GEMINI_2_5_PRO | GEMINI_2_5_PRO_TTS
| GEMINI_2_0_FLASH | GEMINI_2_0_FLASH_001 | GEMINI_2_0_FLASH_EXP
| GEMINI_2_0_FLASH_LITE | GEMINI_2_0_FLASH_LITE_001.

(** [model.value] *)
Definition model_value (m : GeminiModel) : string :=
  match m with
  | GEMINI_3_PRO_PREVIEW => "gemini-3-pro-preview"
  | GEMINI_3_PRO_IMAGE_PREVIEW => "gemini-3-pro-image-preview"
  | GEMINI_3_FLASH_PREVIEW => "gemini-3-flash-preview"
  | GEMINI_2_5_FLASH => "gemini-2.5-flash"
  | GEMINI_2_5_FLASH_PREVIEW => "gemini-2.5-flash-preview-09-2025"
  | GEMINI_2_5_FLASH_IMAGE => "gemini-2.5-flash-image"
  | GEMINI_2_5_FLASH_LIVE => "gemini-2.5-flash-native-audio-preview-12-2025"
  | GEMINI_2_5_FLASH_TTS => "gemini-2.5-flash-preview-tts"
  | GEMINI_2_5_FLASH_LITE => "gemini-2.5-flash-lite"
  | GEMINI_2_5_FLASH_LITE_PREVIEW => "gemini-2.5-flash-lite-preview-09-2025"
  | GEMINI_2_5_PRO => "gemini-2.5-pro"
  | GEMINI_2_5_PRO_TTS => "gemini-2.5-pro-preview-tts"
  | GEMINI_2_0_FLASH => "gemini-2.0-flash"
  | GEMINI_2_0_FLASH_001 => "gemini-2.0-flash-001"
  | GEMINI_2_0_FLASH_EXP => "gemini-2.0-flash-exp"
  | GEMINI_2_0_FLASH_LITE => "gemini-2.0-flash-lite"
  | GEMINI_2_0_FLASH_LITE_001 => "gemini-2.0-flash-lite-001"
  end.

(** Enum members compare by identity (their values are distinct). *)
Definition GeminiModel_eqb (a b : GeminiModel) : bool :=
  String.eqb (model_value a) (model_value b).

Definition strs (l : list string) : pyval := PList (map PStr l).

Definition model_entry (name : string) (inputs : list string) (out_limit : Z)
    (thinking : bool) (cutoff status recommended : string) : pydict :=
  ([("name", PStr name);
   ("input_types", strs inputs);
   ("output_types", strs ["text"]);
   ("input_token_limit", PInt 1048576);
   ("output_token_limit", PInt out_limit);
   ("supports_function_calling", PBool true);
   ("supports_structured_output", PBool true);
   ("supports_thinking", PBool thinking);
   ("knowledge_cutoff", PStr cutoff);
   ("status", PStr status)] ++
  (if String.eqb status "deprecated" then [("deprecation_date", PStr "March 31, 2026")] else [])
  ++ [("recommended_for", PStr recommended)])%list.

(** [MODEL_METADATA], in its insertion order. *)
Definition MODEL_METADATA : list (GeminiModel * pydict) :=
  [(GEMINI_3_PRO_PREVIEW,
     model_entry "Gemini 3 Pro Preview" ["text"; "image"; "video"; "audio"; "pdf"] 65536 true
       "January 2025" "preview" "Most intelligent multimodal tasks");
   (GEMINI_3_FLASH_PREVIEW,
     model_entry "Gemini 3 Flash Preview" ["text"; "image"; "video"; "audio"; "pdf"] 65536 true
       "January 2025" "preview" "Balanced speed and intelligence");
   (GEMINI_2_5_FLASH,
     model_entry "Gemini 2.5 Flash" ["text"; "image"; "video"; "audio"] 65536 true
       "January 2025" "stable" "Production - best price-performance");
   (GEMINI_2_5_FLASH_LITE,
     model_entry "Gemini 2.5 Flash-Lite" ["text"; "image"; "video"; "audio"; "pdf"] 65536 true
       "January 2025" "stable" "High throughput, cost efficiency");
   (GEMINI_2_5_PRO,
     model_entry "Gemini 2.5 Pro" ["text"; "image"; "video"; "audio"; "pdf"] 65536 true
       "January 2025" "stable" "Complex reasoning, large datasets");
   (GEMINI_2_0_FLASH,
     model_entry "Gemini 2.0 Flash" ["text"; "image"; "video"; "audio"] 8192 false
       "August 2024" "deprecated" "DEPRECATED - Use Gemini 2.5 Flash instead")].

(** [RecommendedModels] *)
Definition CLASSIFICATION := GEMINI_2_5_FLASH.
Definition CLASSIFICATION_FALLBACK := GEMINI_2_5_PRO.
Definition DEFAULT_PROCESSOR := GEMINI_2_5_FLASH.
Definition RECIPE_PROCESSOR := GEMINI_2_5_FLASH_LITE.
Definition COMEDY_PROCESSOR := GEMINI_2_5_FLASH.
Definition EDUCATION_PROCESSOR := GEMINI_2_5_PRO.
Definition LIST_PROCESSOR := GEMINI_2_5_FLASH_LITE.

(** [get_model_info(model)]: [MODEL_METADATA.get(model, {})] *)
Definition get_model_info (m : GeminiModel) : pydict :=
  match find (fun p => GeminiModel_eqb (fst p) m) MODEL_METADATA with
  | Some (_, info) => info
  | None => []
  end.

Definition status_is (info : pydict) (s : string) : bool :=
  match dict_get info "status" with Some (PStr s') => String.eqb s' s | _ => false end.

(** [is_model_deprecated(model)] *)
Definition is_model_deprecated (m : GeminiModel) : bool :=
  status_is (get_model_info m) "deprecated".

(** [get_stable_models()] *)
Definition get_stable_models : list GeminiModel :=
  map fst (filter (fun p => status_is (snd p) "stable") MODEL_METADATA).

(** [get_recommended_model_for_task(task)] *)
Definition task_map : list (string * GeminiModel) :=
  [("classification", CLASSIFICATION); ("default", DEFAULT_PROCESSOR);
   ("recipe", RECIPE_PROCESSOR); ("comedy", COMEDY_PROCESSOR);
   ("education", EDUCATION_PROCESSOR); ("list", LIST_PROCESSOR)].

Definition get_recommended_model_for_task (task : string) : GeminiModel :=
  match find (fun p => String.eqb (fst p) (lower task)) task_map with
  | Some (_, m) => m
  | None => DEFAULT_PROCESSOR
  end.

End Config.

(** ** utils/video_utils.py: durations *)
Module Duration.
Import Py RuleBased Extractor.

(** [str(z)] for a Python int. *)
Definition int_str (z : Z) : string :=
  if (z <? 0)%Z then "-" ++ nat_str (Z.to_nat (- z)) else nat_str (Z.to_nat z).

(** [f"{z:02d}"]: zero-padded to width 2 (a negative number already has
    width 2). *)
Definition pad2 (z : Z) : string :=
  let s := int_str z in
  if String.length s <? 2 then "0" ++ s else s.

(** [format_duration(seconds)]: [//] and [%] floor, as [Z.div] and
    [Z.modulo] do. *)
Definition format_duration (seconds : Z) : string :=
  let hours := (seconds / 3600)%Z in
  let minutes := ((seconds mod 3600) / 60)%Z in
  let secs := (seconds mod 60)%Z in
  if (0 <? hours)%Z then int_str hours ++ ":" ++ pad2 minutes ++ ":" ++ pad2 secs
  else int_str minutes ++ ":" ++ pad2 secs.

(** [\d] on ASCII. *)
Definition is_digit (c : ascii) : bool :=
  (48 <=? nat_of_ascii c) && (nat_of_ascii c <=? 57).

(** The longest prefix of digits and the rest. *)
Fixpoint digit_run (s : string) : string * string :=
  match s with
  | EmptyString => (EmptyString, EmptyString)
  | String c s' =>
      if is_digit c then let (d, r) := digit_run s' in (String c d, r)
      else (EmptyString, s)
  end.

(** [int(d)] on a string of digits, accumulated from [acc]. *)
Fixpoint decimal_value (acc : nat) (d : string) : nat :=
  match d with
  | EmptyString => acc
  | String c d' => decimal_value (10 * acc + (nat_of_ascii c - 48)) d'
  end.

(** [re.search(r'(\d+)' + unit, s)] followed by [int(m.group(1))]: the
    leftmost start where a maximal run of digits is followed by [unit]
    (a shorter run is followed by a digit, so it cannot match). *)
Fixpoint search_unit (unit : ascii) (s : string) : option nat :=
  match s with
  | EmptyString => None
  | String _ s' =>
      let (d, r) := digit_run s in
      match r with
      | String c _ => if str_truthy d && Ascii.eqb c unit then Some (decimal_value 0 d)
                      else search_unit unit s'
      | EmptyString => search_unit unit s'
      end
  end.

(** [if unit in duration: m = re.search(...); if m: value = int(...)] *)
Definition component (unit : ascii) (duration : string) : nat :=
  if contains (String unit EmptyString) duration then
    match search_unit unit duration with Some n => n | None => 0 end
  else 0.

(** [parse_iso8601_duration(duration)] *)
Definition parse_iso8601_duration (duration : string) : nat :=
  let duration := remove_all "PT" duration in
  let hours := component "H" duration in
  let minutes := component "M" duration in
  let seconds := component "S" duration in
  hours * 3600 + minutes * 60 + seconds.

End Duration.

(** ** services/youtube_extractor.py: [get_metadata] *)
Module YouTubeAPI.
Import Py Schemas Duration.

(** What [client.get(...)], [raise_for_status()] and [response.json()]
    produce: the decoded JSON, an [httpx.HTTPStatusError] with its status
    code, an [httpx.RequestError], or another exception. *)
Inductive http_outcome : Type :=
| HttpJson (data : pyval)
| HttpStatusError (status_code : Z)
| HttpRequestError
| HttpOtherError (exc : string).

(** [d.get(k, default)] on a value that must be a dict ([AttributeError]
    otherwise). *)
Definition get_attr (v : pyval) (k : string) (dflt : pyval) : pyres pyval :=
  match v with
  | PDict d => Ok (dict_get_default d k dflt)
  | _ => Raise "AttributeError"
  end.

(** [seq[0]] on the truthy [items] value. *)
Definition first_item (v : pyval) : pyres pyval :=
  match v with
  | PList (x :: _) => Ok x
  | PDict _ => Raise "KeyError"
  | PStr (String c _) => Ok (PStr (String c EmptyString))
  | _ => Raise "TypeError"
  end.

(** A [str] field of a pydantic model. *)
Definition as_str (v : pyval) : pyres string :=
  match v with PStr s => Ok s | _ => Raise "ValidationError" end.

(** [if not YOUTUBE_API_KEY] *)
Definition api_key_configured (k : option string) : bool :=
  match k with Some k => str_truthy k | None => false end.

Section GetMetadata.
Variable YOUTUBE_API_KEY : option string.
(** The [videos] endpoint for a video id. *)
Variable videos_api : string -> http_outcome.
(** [int(s)] on a string; [None] is a [ValueError]. *)
Variable str_to_int : string -> option Z.

(** [int(v)] *)
Definition py_int (v : pyval) : pyres Z :=
  match v with
  | PInt z => Ok z
  | PBool b => Ok (if b then 1%Z else 0%Z)
  | PFloat (Fin q) => Ok (Z.quot (Qnum q) (Zpos (Qden q)))
  | PFloat NaN => Raise "ValueError"
  | PFloat _ => Raise "OverflowError"
  | PStr s => match str_to_int s with Some z => Ok z | None => Raise "ValueError" end
  | _ => Raise "TypeError"
  end.

(** [a or b] on JSON values. *)
Definition py_or (a : pyval) (b : unit -> pyres pyval) : pyres pyval :=
  if Processors.py_truthy a then Ok a else b tt.

(** [thumbnails.get(size, {}).get("url")] *)
Definition thumb (thumbnails : pyval) (size : string) : pyres pyval :=
  t <- get_attr thumbnails size (PDict []) ;; get_attr t "url" PNone.

(** [List[str]] *)
Definition as_str_list (v : pyval) : pyres (list string) :=
  match v with
  | PList l => match str_list l with Some ls => Ok ls | None => Raise "ValidationError" end
  | _ => Raise "ValidationError"
  end.

(** The body of the [try] block after [response.json()]. *)
Definition build_metadata (video_id : string) (data : pyval) : pyres VideoMetadata :=
  items <- get_attr data "items" PNone ;;
  if negb (Processors.py_truthy items) then Raise "ValueError" else
  video_data <- first_item items ;;
  snippet <- get_attr video_data "snippet" (PDict []) ;;
  statistics <- get_attr video_data "statistics" (PDict []) ;;
  content_details <- get_attr video_data "contentDetails" (PDict []) ;;
  duration_iso <- get_attr content_details "duration" (PStr "PT0S") ;;
  duration_iso <- (match duration_iso with PStr s => Ok s | _ => Raise "AttributeError" end) ;;
  let duration_seconds := parse_iso8601_duration duration_iso in
  thumbnails <- get_attr snippet "thumbnails" (PDict []) ;;
  high <- thumb thumbnails "high" ;;
  thumbnail_url <- py_or high (fun _ =>
                   medium <- thumb thumbnails "medium" ;;
                   py_or medium (fun _ =>
                   dflt <- thumb thumbnails "default" ;;
                   py_or dflt (fun _ => Ok (PStr EmptyString)))) ;;
  title_ <- get_attr snippet "title" (PStr EmptyString) ;;
  description_ <- get_attr snippet "description" (PStr EmptyString) ;;
  channel_name_ <- get_attr snippet "channelTitle" (PStr EmptyString) ;;
  channel_id_ <- get_attr snippet "channelId" (PStr EmptyString) ;;
  view_raw <- get_attr statistics "viewCount" (PInt 0) ;;
  view_count_ <- py_int view_raw ;;
  like_raw <- get_attr statistics "likeCount" PNone ;;
  like_count_ <- (if Processors.py_truthy like_raw
                  then z <- py_int like_raw ;; Ok (Some z) else Ok None) ;;
  tags_ <- get_attr snippet "tags" (PList []) ;;
  published_at_ <- get_attr snippet "publishedAt" (PStr EmptyString) ;;
  category_id_ <- get_attr snippet "categoryId" (PStr "0") ;;
  (* [VideoMetadata(...)] validation *)
  t <- as_str title_ ;; d <- as_str description_ ;; cn <- as_str channel_name_ ;;
  ci <- as_str channel_id_ ;; tg <- as_str_list tags_ ;; tu <- as_str thumbnail_url ;;
  pa <- as_str published_at_ ;; ca <- as_str category_id_ ;;
  Ok {| video_id := video_id; title := t; description := d; channel_name := cn;
        channel_id := ci; duration_seconds := Z.of_nat duration_seconds;
        view_count := view_count_; like_count := like_count_; tags := tg;
        thumbnail_url := tu; published_at := pa; category_id := ca |}.

(** [get_metadata(video_id)]: inside the [try], an HTTP 403 and every
    other status become [YouTubeAPIError], an HTTP 400 becomes
    [ValueError], and any other exception (the [ValueError] of a missing
    video included) becomes [YouTubeAPIError]. *)
Definition get_metadata (video_id : string) : pyres VideoMetadata :=
  if negb (api_key_configured YOUTUBE_API_KEY) then Raise "YouTubeAPIError" else
  match videos_api video_id with
  | HttpStatusError code =>
      if (code =? 403)%Z then Raise "YouTubeAPIError"
      else if (code =? 400)%Z then Raise "ValueError"
      else Raise "YouTubeAPIError"
  | HttpRequestError => Raise "YouTubeAPIError"
  | HttpOtherError _ => Raise "YouTubeAPIError"
  | HttpJson data =>
      match build_metadata video_id data with
      | Ok m => Ok m
      | Raise _ => Raise "YouTubeAPIError"
      end
  end.
End GetMetadata.

End YouTubeAPI.

(** ** routers/analyze.py *)
Module Analyze.
Import Py Schemas Ladder Extractor YouTubeAPI.

Inductive JobStatus : Type := PENDING | PROCESSING | COMPLETED | FAILED.

Record AnalyzeResponse : Type := {
  job_id : string;
  status : JobStatus;
  ar_category : option VideoCategory;
  ar_metadata : option VideoMetadata;
  result : option ExtractionResult;
  error : option string
}.

(** What the endpoint produces: a response, or an [HTTPException] with its
    status code and the fixed prefix of its [detail]. *)
Inductive endpoint_outcome : Type :=
| Response (r : AnalyzeResponse)
| HTTPException (status_code : Z) (detail_prefix : string).

(** [except ValueError]: pydantic's [ValidationError] is a subclass. *)
Definition is_value_error (e : string) : bool :=
  String.eqb e "ValueError" || String.eqb e "ValidationError".

Section Analyze.
Variable check_bracketed_netloc : string -> bool.
Variable YOUTUBE_API_KEY : option string.
Variable videos_api : string -> http_outcome.
Variable str_to_int : string -> option Z.
Variable caption_file_text : string -> option string.
Variable caption_unlink_ok : string -> bool.
Variable download_audio : string -> option string.
Variable whisper_text : string -> option string.
Variable key_frames : string -> list string.
Variable comments : string -> list string.
Variable extraction_time : Q.
Variable GOOGLE_API_KEY : option string.
Variable generate : string -> bool -> ExtractionResult -> gen_outcome.
Variable load_json : string -> option pyval.
Variable str_to_float : string -> option pyfloat.
(** [str(uuid.uuid4())] and the classification time. *)
Variable new_job_id : string.
Variable now : string.

(** [extract_all] with the [get_metadata] of [services/youtube_extractor.py]. *)
Definition extract (youtube_url : string) : pyres ExtractionResult :=
  extract_all check_bracketed_netloc (get_metadata YOUTUBE_API_KEY videos_api str_to_int)
    caption_file_text caption_unlink_ok download_audio whisper_text key_frames comments
    extraction_time youtube_url.

(** [analyze_video(request)] *)
Definition analyze_video (youtube_url : string) : endpoint_outcome :=
  let body :=
    extraction_result <- extract youtube_url ;;
    classification_result <-
      fst (classify_with_fallback GOOGLE_API_KEY generate load_json str_to_float
             extraction_result now) ;;
    Ok {| job_id := new_job_id; status := COMPLETED;
          ar_category := Some (category classification_result);
          ar_metadata := Some (metadata extraction_result);
          result := Some extraction_result; error := None |} in
  match body with
  | Ok r => Response r
  | Raise e =>
      if is_value_error e then HTTPException 400 "Invalid YouTube URL: "
      else if String.eqb e "YouTubeAPIError" then HTTPException 500 "YouTube API error: "
      else HTTPException 500 "Analysis failed: "
  end.
End Analyze.

End Analyze.

(** ** Observation functions used to state the claims *)
Module Observe.
Import Py Schemas RuleBased Ladder.

(** The keyword occurrences counted by [rule_based_classify]: one entry
    (category, weight, keyword) for every keyword of the table found in the
    text, row by row and tier by tier. *)
Definition row_matches (text : string) (row : VideoCategory * keywords)
  : list (VideoCategory * nat * string) :=
  let '(c, k) := row in
  map (fun kw => (c, 5, kw)) (filter (fun kw => contains kw text) (strong k))
  ++ map (fun kw => (c, 2, kw)) (filter (fun kw => contains kw text) (medium k))
  ++ map (fun kw => (c, 1, kw)) (filter (fun kw => contains kw text) (weak k)).

Definition matched_keywords (text : string) : list (VideoCategory * nat * string) :=
  flat_map (row_matches text) rules.

(** The ladder as the specification words it: rungs (model, modality,
    threshold) tried in order, each only after every earlier one threw or
    returned a confidence at or below its threshold, then the rule-based
    heuristic. *)
Definition specified_rungs : list (string * bool * Q) :=
  [(PRIMARY_MODEL, true, 7 # 10); (PRIMARY_MODEL, false, 6 # 10);
   (FALLBACK_MODEL, true, 7 # 10); (FALLBACK_MODEL, false, 5 # 10)].

Section Spec.
Variable GOOGLE_API_KEY : option string.
Variable generate : string -> bool -> ExtractionResult -> gen_outcome.
Variable load_json : string -> option pyval.
Variable str_to_float : string -> option pyfloat.

Fixpoint ladder_spec (rungs : list (string * bool * Q)) (x : ExtractionResult)
    (now : string) : pyres ClassificationResult * list call :=
  match rungs with
  | [] => (rule_based_classify x now, [])
  | (m, f, thr) :: rest =>
      match classify_video GOOGLE_API_KEY generate load_json str_to_float m f x now with
      | Ok r =>
          if Qltb thr (confidence r) then (Ok r, [(m, f)])
          else let '(res, log) := ladder_spec rest x now in (res, (m, f) :: log)
      | Raise _ => let '(res, log) := ladder_spec rest x now in (res, (m, f) :: log)
      end
  end.
End Spec.

(** A sample extraction record. *)
Definition sample_metadata (t d : string) : VideoMetadata :=
  {| video_id := "dQw4w9WgXcQ"; title := t; description := d;
     channel_name := "Rick Astley"; channel_id := "UCuAXFkgsw1L7xaCfnd5JJOw";
     duration_seconds := 212; view_count := 0; like_count := None; tags := [];
     thumbnail_url := ""; published_at := "2009-10-25T06:57:33Z";
     category_id := "10" |}.

Definition sample_record (t d : string) : ExtractionResult :=
  {| metadata := sample_metadata t d; captions := None; transcript := None;
     key_frame_paths := []; top_comments := []; extraction_time_seconds := None |}.

(** A string whose last character is a line feed. *)
Definition ends_with_newline (s : string) : bool :=
  String.eqb (substring (String.length s - 1) 1 s) (String VideoUtils.newline EmptyString).

(** A total failure of the AI call of the processor [name]: no credentials,
    an exception from the call, or a response that is not valid JSON. *)
Definition ai_call_fails (GOOGLE_API_KEY : option string)
  (generate_content : string -> ExtractionResult -> gen_outcome)
  (load_json : string -> option pyval) (name : string) (x : ExtractionResult) : Prop :=
  key_configured GOOGLE_API_KEY = false \/
  (exists e, generate_content name x = GenRaise e) \/
  (exists t, generate_content name x = GenText t /\ load_json (Processors.clean_fences t) = None).

(** The lines of a text file joined with line feeds. *)
Definition file_lines (l : list string) : string :=
  String.concat (String VideoUtils.newline EmptyString) l.

End Observe.

(** * Proofs *)

(** ** Auxiliary lemmas on the Python primitives *)
Module PyFacts.
Import Py.

Lemma Qle_bool_true_iff (a b : Q) : Qle_bool a b = true <-> (a <= b)%Q.
Proof. apply Qle_bool_iff. Qed.

Lemma Qltb_true (a b : Q) : Qltb a b = true -> (a < b)%Q.
Proof.
  unfold Qltb. intro H. apply negb_true_iff in H.
  apply Qnot_le_lt. intro Hle. apply Qle_bool_iff in Hle. congruence.
Qed.

Lemma Qltb_false (a b : Q) : Qltb a b = false -> (b <= a)%Q.
Proof.
  unfold Qltb. intro H. apply negb_false_iff in H. apply Qle_bool_iff. exact H.
Qed.

End PyFacts.

(** ** The classification result constructor *)
Module SchemaFacts.
Import Py Schemas.

Lemma str_list_map_PStr (l : list string) : str_list (map PStr l) = Some l.
Proof. induction l as [|s l IH]; simpl; [reflexivity|now rewrite IH]. Qed.

(** Every value the constructor accepts has a confidence in [0, 1]. *)
Lemma mk_ClassificationResult_range vid cat conf sub rs al m t r :
  mk_ClassificationResult vid cat conf sub rs al m t = Ok r ->
  (0 <= confidence r <= 1)%Q.
Proof.
  unfold mk_ClassificationResult.
  destruct conf as [q| | |]; try discriminate.
  destruct (Qle_bool 0 q) eqn:H0; destruct (Qle_bool q 1) eqn:H1;
    simpl; try discriminate.
  destruct sub; try discriminate; destruct rs; try discriminate;
    destruct al; try discriminate;
    destruct (str_list l) eqn:?; try discriminate;
    intro E; inversion E; subst; simpl;
    (split; apply Qle_bool_iff; assumption).
Qed.

(** The constructor with a clock reading is the constructor without one,
    stamped afterwards. *)
Definition stamp (t : option string) (r : ClassificationResult) : ClassificationResult :=
  {| cr_video_id := cr_video_id r; category := category r;
     confidence := confidence r; sub_category := sub_category r;
     reasoning := reasoning r; alternative_categories := alternative_categories r;
     model_used := model_used r; classified_at := t |}.

Definition res_map {A B} (f : A -> B) (m : pyres A) : pyres B :=
  match m with Ok a => Ok (f a) | Raise e => Raise e end.

Lemma mk_ClassificationResult_stamp vid cat conf sub rs al m t :
  mk_ClassificationResult vid cat conf sub rs al m t =
  res_map (stamp t) (mk_ClassificationResult vid cat conf sub rs al m None).
Proof.
  unfold mk_ClassificationResult.
  destruct conf; try reflexivity.
  destruct (Qle_bool 0 q && Qle_bool q 1); try reflexivity.
  destruct sub, rs, al; try reflexivity;
    destruct (str_list l); reflexivity.
Qed.

Lemma category_in_enum (c : VideoCategory) : In c all_categories.
Proof. destruct c; simpl; tauto. Qed.

End SchemaFacts.

(** ** The rule-based classifier *)
Module RuleBasedFacts.
Import Py Schemas RuleBased PyFacts SchemaFacts.

Definition max_step (m : nat) (p : VideoCategory * nat) : nat := Nat.max m (snd p).
Definition arg_step (best q : VideoCategory * nat) : VideoCategory * nat :=
  if snd best <? snd q then q else best.

Lemma snd_arg_step b q : snd (arg_step b q) = Nat.max (snd b) (snd q).
Proof.
  unfold arg_step. destruct (Nat.ltb_spec (snd b) (snd q)); lia.
Qed.

Lemma fold_arg_snd (l : list (VideoCategory * nat)) b :
  snd (fold_left arg_step l b) = fold_left max_step l (snd b).
Proof.
  revert b; induction l as [|q l IH]; intro b; simpl; [reflexivity|].
  rewrite IH, snd_arg_step. reflexivity.
Qed.

Lemma fold_arg_in (l : list (VideoCategory * nat)) b :
  In (fold_left arg_step l b) (b :: l).
Proof.
  revert b; induction l as [|q l IH]; intro b; simpl; [tauto|].
  destruct (IH (arg_step b q)) as [E|E].
  - rewrite <- E. unfold arg_step. destruct (snd b <? snd q); tauto.
  - tauto.
Qed.

Lemma fold_arg_keep (l : list (VideoCategory * nat)) b :
  (forall q, In q l -> snd q <= snd b) -> fold_left arg_step l b = b.
Proof.
  revert b; induction l as [|q l IH]; intros b H; simpl; [reflexivity|].
  unfold arg_step at 2.
  destruct (Nat.ltb_spec (snd b) (snd q)) as [Hl|Hl].
  - specialize (H q (or_introl eq_refl)). lia.
  - apply IH. intros q' Hq'. apply H. simpl; tauto.
Qed.

Lemma fold_max_keep (l : list (VideoCategory * nat)) m :
  (forall q, In q l -> snd q <= m) -> fold_left max_step l m = m.
Proof.
  revert m; induction l as [|q l IH]; intros m H; simpl; [reflexivity|].
  unfold max_step at 2. rewrite Nat.max_l by (apply H; simpl; tauto).
  apply IH. intros q' Hq'. apply H. simpl; tauto.
Qed.

Lemma argmax_spec (s : list (VideoCategory * nat)) c n :
  argmax s = Some (c, n) -> In (c, n) s /\ n = max_score s.
Proof.
  destruct s as [|p s']; simpl; [discriminate|].
  intro E. injection E as E.
  split.
  - rewrite <- E. apply (fold_arg_in s' p).
  - unfold max_score. simpl.
    change (fun (m : nat) (p0 : VideoCategory * nat) => Nat.max m (snd p0)) with max_step.
    change (fun (best q : VideoCategory * nat) => if snd best <? snd q then q else best)
      with arg_step in E.
    rewrite <- (fold_arg_snd s' p), E. reflexivity.
Qed.

Lemma scores_fst (text : string) : map fst (scores text) = map fst rules.
Proof.
  unfold scores. rewrite map_map. apply map_ext. intros [c k]. reflexivity.
Qed.

Lemma scores_nonempty (text : string) : is_empty (scores text) = false.
Proof.
  assert (H : length (scores text) = 12) by (unfold scores; rewrite length_map; reflexivity).
  destruct (scores text); [discriminate|reflexivity].
Qed.

Lemma Qmin_range (n : nat) :
  (0 <= Qmin (6 # 10) (Z.of_nat n # 15) <= 6 # 10)%Q.
Proof.
  split.
  - apply Q.min_glb.
    + unfold Qle; simpl; lia.
    + unfold Qle; simpl; lia.
  - apply Q.le_min_l.
Qed.

(** The shape of every result: it exists, it is stamped by the clock, its
    model is "rule-based", its confidence lies in [0, 0.6], and its category
    is "unknown" or a key of the rule table. *)
Lemma rule_based_ok (x : ExtractionResult) (now : string) :
  exists r, rule_based_classify x now = Ok r /\
    model_used r = "rule-based" /\ classified_at r = Some now /\
    (0 <= confidence r <= 6 # 10)%Q /\
    (category r = UNKNOWN \/ In (category r) (map fst rules)).
Proof.
  unfold rule_based_classify.
  pose proof (scores_nonempty (search_text x)) as Hne.
  pose proof (scores_fst (search_text x)) as Hfst.
  set (sc := scores (search_text x)) in *. clearbody sc.
  rewrite Hne. cbn [orb].
  destruct (max_score sc =? 0).
  - eexists; split; [reflexivity|]. cbn.
    split; [reflexivity|]. split; [reflexivity|].
    split; [split; unfold Qle; simpl; lia|]. tauto.
  - destruct (argmax sc) as [[c n]|] eqn:A.
    + destruct (argmax_spec _ _ _ A) as [Hin _].
      assert (H1 : Qle_bool (Qmin (6 # 10) (Z.of_nat n # 15)) 1 = true).
      { apply Qle_bool_true_iff. eapply Qle_trans; [apply Qmin_range|].
        unfold Qle; simpl; lia. }
      assert (H0 : Qle_bool 0 (Qmin (6 # 10) (Z.of_nat n # 15)) = true)
        by (apply Qle_bool_true_iff; apply Qmin_range).
      eexists; split.
      * unfold mk_ClassificationResult. rewrite H0, H1. cbn [andb].
        rewrite str_list_map_PStr. reflexivity.
      * cbn [model_used classified_at confidence category].
        split; [reflexivity|]. split; [reflexivity|].
        split; [apply Qmin_range|]. right.
        rewrite <- Hfst. apply (in_map fst) in Hin. exact Hin.
    + destruct sc; [discriminate|discriminate].
Qed.

End RuleBasedFacts.

(** ** Claims on the rule-based classifier *)
Module RuleBasedClaims.
Import Py Schemas RuleBased Observe PyFacts SchemaFacts RuleBasedFacts.

Lemma rule_based_stamp (x : ExtractionResult) (now : string) :
  rule_based_classify x now = res_map (stamp (Some now)) (rule_based_classify x "").
Proof.
  unfold rule_based_classify.
  destruct (is_empty (scores (search_text x)) || (max_score (scores (search_text x)) =? 0)).
  - rewrite (mk_ClassificationResult_stamp _ _ _ _ _ _ _ (Some now)).
    rewrite (mk_ClassificationResult_stamp _ _ _ _ _ _ _ (Some "")).
    destruct (mk_ClassificationResult _ _ _ _ _ _ _ None); reflexivity.
  - destruct (argmax (scores (search_text x))) as [[c n]|]; [|reflexivity].
    rewrite (mk_ClassificationResult_stamp _ _ _ _ _ _ _ (Some now)).
    rewrite (mk_ClassificationResult_stamp _ _ _ _ _ _ _ (Some "")).
    destruct (mk_ClassificationResult _ _ _ _ _ _ _ None); reflexivity.
Qed.

Lemma rule_based_positive (x : ExtractionResult) (now : string) c n :
  max_score (scores (search_text x)) <> 0 ->
  argmax (scores (search_text x)) = Some (c, n) ->
  exists r, rule_based_classify x now = Ok r /\ category r = c /\
    confidence r = Qmin (6 # 10) (Z.of_nat n # 15).
Proof.
  intros Hm A.
  destruct (rule_based_ok x now) as [r [E _]].
  exists r. split; [exact E|].
  revert E. unfold rule_based_classify.
  rewrite scores_nonempty. cbn [orb].
  apply Nat.eqb_neq in Hm. rewrite Hm, A.
  unfold mk_ClassificationResult.
  destruct (Qle_bool 0 (Qmin (6 # 10) (Z.of_nat n # 15)) &&
            Qle_bool (Qmin (6 # 10) (Z.of_nat n # 15)) 1); [|discriminate].
  rewrite str_list_map_PStr. intro E. injection E as E. subst r.
  split; reflexivity.
Qed.

Lemma flat_map_singleton {A B} (f : A -> list B) (l : list A) (e : B) :
  flat_map f l = [e] ->
  exists l1 a l2, l = (l1 ++ a :: l2)%list /\ f a = [e] /\
    (forall b, In b l1 \/ In b l2 -> f b = []).
Proof.
  induction l as [|a l IH]; simpl; [discriminate|].
  destruct (f a) as [|e1 [|e2 r]] eqn:Fa; simpl.
  - intro H. destruct (IH H) as [l1 [a' [l2 [E [F G]]]]].
    exists (a :: l1), a', l2. subst l. split; [reflexivity|]. split; [exact F|].
    intros b [[<-|Hb]|Hb]; [exact Fa| |]; apply G; tauto.
  - intro H. injection H as <- H.
    exists [], a, l. split; [reflexivity|]. split; [exact Fa|].
    intros b [[]|Hb].
    destruct (f b) eqn:Fb; [reflexivity|].
    exfalso. assert (Hin : In b0 (flat_map f l)) by (apply in_flat_map; exists b; rewrite Fb; simpl; tauto).
    rewrite H in Hin. exact Hin.
  - discriminate.
Qed.

Lemma row_score_zero (text : string) (row : VideoCategory * keywords) :
  row_matches text row = [] -> category_score (snd row) text = 0.
Proof.
  destruct row as [c k]. unfold row_matches, category_score, tier_score. simpl.
  destruct (filter (fun kw => contains kw text) (strong k));
  destruct (filter (fun kw => contains kw text) (medium k));
  destruct (filter (fun kw => contains kw text) (weak k)); simpl; try discriminate.
  reflexivity.
Qed.

Lemma row_score_strong (text : string) (row : VideoCategory * keywords) c kw :
  row_matches text row = [(c, 5, kw)] ->
  fst row = c /\ category_score (snd row) text = 5.
Proof.
  destruct row as [c' k]. unfold row_matches, category_score, tier_score. simpl.
  destruct (filter (fun kw => contains kw text) (strong k)) as [|s1 [|s2 ss]];
  destruct (filter (fun kw => contains kw text) (medium k)) as [|m1 ms];
  destruct (filter (fun kw => contains kw text) (weak k)) as [|w1 ws];
  simpl; intro H; inversion H; subst; auto.
Qed.

(** C3: when no keyword occurs ([max] score zero) the result is "unknown"
    with confidence 0.3 and the fixed reasoning; otherwise its confidence is
    min(0.6, best_score / 15); when the only keyword occurrence in the search
    text is one strong keyword of one category, the result is that category
    with confidence 1/3. *)
Theorem rule_based_confidence (x : ExtractionResult) (now : string) :
  (max_score (scores (search_text x)) = 0 ->
     exists r, rule_based_classify x now = Ok r /\ category r = UNKNOWN /\
       confidence r = 3 # 10 /\
       reasoning r = "No matching keywords found in rule-based classification") /\
  (max_score (scores (search_text x)) <> 0 ->
     exists r, rule_based_classify x now = Ok r /\
       confidence r = Qmin (6 # 10) (Z.of_nat (max_score (scores (search_text x))) # 15)) /\
  (forall c kw, matched_keywords (search_text x) = [(c, 5, kw)] ->
     exists r, rule_based_classify x now = Ok r /\ category r = c /\
       (confidence r == 1 # 3)%Q).
Proof.
  split; [|split].
  - intro H0. unfold rule_based_classify.
    rewrite scores_nonempty, H0. cbn [orb Nat.eqb].
    eexists; split; [reflexivity|]. cbn. auto.
  - intro Hm.
    destruct (argmax (scores (search_text x))) as [[c n]|] eqn:A.
    + destruct (argmax_spec _ _ _ A) as [_ En].
      destruct (rule_based_positive x now c n Hm A) as [r [E [_ C]]].
      exists r. rewrite <- En. auto.
    + pose proof (scores_nonempty (search_text x)).
      destruct (scores (search_text x)); discriminate.
  - intros c kw H.
    unfold matched_keywords in H.
    destruct (flat_map_singleton _ _ _ H) as [l1 [a [l2 [El [Fa G]]]]].
    destruct (row_score_strong _ _ _ _ Fa) as [Ca Sa].
    set (g := fun '(c0, k) => (c0, category_score k (search_text x))
              : VideoCategory * nat).
    assert (Es : scores (search_text x) = (map g l1 ++ (c, 5) :: map g l2)%list).
    { change (map g rules = (map g l1 ++ (c, 5) :: map g l2)%list).
      rewrite El, map_app. cbn [map]. f_equal. f_equal.
      destruct a as [ca ka]. cbn [fst snd] in Ca, Sa. subst ca.
      unfold g. cbv beta iota. rewrite Sa. reflexivity. }
    assert (Z1 : forall q, In q (map g l1) -> snd q = 0).
    { intros q Hq. apply in_map_iff in Hq. destruct Hq as [[cb kb] [<- Hb]].
      apply (row_score_zero (search_text x) (cb, kb)). apply G. tauto. }
    assert (Z2 : forall q, In q (map g l2) -> snd q = 0).
    { intros q Hq. apply in_map_iff in Hq. destruct Hq as [[cb kb] [<- Hb]].
      apply (row_score_zero (search_text x) (cb, kb)). apply G. tauto. }
    assert (Mx : max_score (scores (search_text x)) = 5).
    { rewrite Es. unfold max_score. rewrite fold_left_app.
      change (fun (m : nat) (p : VideoCategory * nat) => Nat.max m (snd p)) with max_step.
      rewrite (fold_max_keep (map g l1) 0) by (intros q Hq; rewrite (Z1 q Hq); lia).
      simpl. unfold max_step at 2. simpl.
      apply fold_max_keep. intros q Hq; rewrite (Z2 q Hq); lia. }
    assert (Ar : argmax (scores (search_text x)) = Some (c, 5)).
    { rewrite Es. unfold argmax.
      change (fun (best q : VideoCategory * nat) => if snd best <? snd q then q else best)
        with arg_step.
      destruct (map g l1) as [|p l1'] eqn:Eg.
      - simpl. f_equal. apply fold_arg_keep. intros q Hq. rewrite (Z2 q Hq). simpl; lia.
      - simpl. f_equal. rewrite fold_left_app.
        rewrite (fold_arg_keep l1' p).
        + simpl. unfold arg_step at 2. rewrite (Z1 p (or_introl eq_refl)). simpl.
          apply fold_arg_keep. intros q Hq. rewrite (Z2 q Hq). simpl; lia.
        + intros q Hq. rewrite (Z1 q (or_intror Hq)). lia. }
    destruct (rule_based_positive x now c 5) as [r [E [Cr Qr]]];
      [rewrite Mx; discriminate|exact Ar|].
    exists r. split; [exact E|]. split; [exact Cr|].
    rewrite Qr. reflexivity.
Qed.

(** C4 (counterexample): two calls on the same record at two clock readings
    return different results, since [classified_at] is read from the clock. *)
Lemma rule_based_clock_dependent :
  rule_based_classify (sample_record "Pasta recipe" "") "2026-10-17T10:00:00Z" <>
  rule_based_classify (sample_record "Pasta recipe" "") "2026-10-17T10:00:01Z".
Proof. vm_compute. intro E. inversion E. Qed.

(** C4 (amended): for a fixed clock reading the result is a function of the
    record alone (of its video id and search text); the clock only stamps
    [classified_at].  Records with the same video id and search text, in
    particular identical records, get identical category, confidence,
    alternatives, reasoning, sub-category and model at any two times. *)
Theorem rule_based_deterministic (x y : ExtractionResult) (now1 now2 : string) :
  search_text x = search_text y ->
  video_id (metadata x) = video_id (metadata y) ->
  exists r1 r2,
    rule_based_classify x now1 = Ok r1 /\ rule_based_classify y now2 = Ok r2 /\
    category r1 = category r2 /\ confidence r1 = confidence r2 /\
    alternative_categories r1 = alternative_categories r2 /\
    reasoning r1 = reasoning r2 /\ sub_category r1 = sub_category r2 /\
    model_used r1 = model_used r2 /\ cr_video_id r1 = cr_video_id r2 /\
    classified_at r1 = Some now1 /\ classified_at r2 = Some now2.
Proof.
  intros Ht Hv.
  assert (Exy : rule_based_classify x "" = rule_based_classify y "").
  { unfold rule_based_classify. rewrite Ht, Hv. reflexivity. }
  destruct (rule_based_ok x "") as [r0 [E0 _]].
  exists (stamp (Some now1) r0), (stamp (Some now2) r0).
  rewrite (rule_based_stamp x now1), (rule_based_stamp y now2), <- Exy, E0.
  cbn. repeat split.
Qed.

Lemma rule_based_deterministic_witness :
  (search_text (sample_record "Pasta recipe" "") = search_text (sample_record "Pasta recipe" "") /\
   video_id (metadata (sample_record "Pasta recipe" "")) =
     video_id (metadata (sample_record "Pasta recipe" ""))) /\
  exists r1 r2,
    rule_based_classify (sample_record "Pasta recipe" "") "t1" = Ok r1 /\
    rule_based_classify (sample_record "Pasta recipe" "") "t2" = Ok r2 /\
    category r1 = category r2 /\ confidence r1 = confidence r2 /\
    alternative_categories r1 = alternative_categories r2 /\
    reasoning r1 = reasoning r2 /\ sub_category r1 = sub_category r2 /\
    model_used r1 = model_used r2 /\ cr_video_id r1 = cr_video_id r2 /\
    classified_at r1 = Some "t1" /\ classified_at r2 = Some "t2".
Proof.
  split; [split; reflexivity|].
  apply (rule_based_deterministic (sample_record "Pasta recipe" "")
           (sample_record "Pasta recipe" "") "t1" "t2"); reflexivity.
Defined.

(** C10: the rule-based category is "unknown" or one of the twelve keys of
    the keyword table, and never "news" (which belongs to the enumeration). *)
Theorem rule_based_never_news (x : ExtractionResult) (now : string) :
  exists r, rule_based_classify x now = Ok r /\
    (category r = UNKNOWN \/ In (category r) (map fst rules)) /\
    length (map fst rules) = 12 /\ NoDup (map fst rules) /\
    category r <> NEWS /\ In NEWS all_categories.
Proof.
  destruct (rule_based_ok x now) as [r [E [_ [_ [_ C]]]]].
  exists r. split; [exact E|]. split; [exact C|].
  split; [reflexivity|].
  split; [repeat constructor; simpl; intuition discriminate|].
  split; [|simpl; tauto].
  destruct C as [-> | Hin]; [discriminate|].
  intro Hn. rewrite Hn in Hin. simpl in Hin. intuition discriminate.
Qed.

End RuleBasedClaims.

(** ** Claims on the fallback ladder *)
Module LadderClaims.
Import Py Schemas RuleBased Ladder Observe PyFacts SchemaFacts RuleBasedFacts.

Section WithService.
Variable GOOGLE_API_KEY : option string.
Variable generate : string -> bool -> ExtractionResult -> gen_outcome.
Variable load_json : string -> option pyval.
Variable str_to_float : string -> option pyfloat.

Let cv := classify_video GOOGLE_API_KEY generate load_json str_to_float.

Lemma classify_video_range m f x now r :
  cv m f x now = Ok r -> (0 <= confidence r <= 1)%Q.
Proof.
  unfold cv, classify_video.
  destruct (negb (key_configured GOOGLE_API_KEY)); [discriminate|].
  destruct (generate m f x) as [e|s]; [discriminate|].
  unfold parse_response.
  destruct (load_json s) as [[| | | | | |d]|]; try discriminate.
  destruct (py_float str_to_float _) as [conf|e]; cbn [bind]; [|discriminate].
  apply mk_ClassificationResult_range.
Qed.

Lemma try_rung_preserves (P : ClassificationResult -> Prop) m f thr x now rest :
  (forall r, cv m f x now = Ok r -> P r) ->
  (exists r, fst rest = Ok r /\ P r) ->
  exists r, fst (try_rung GOOGLE_API_KEY generate load_json str_to_float m f thr x now rest)
            = Ok r /\ P r.
Proof.
  intros HP Hrest. unfold try_rung. fold cv.
  destruct (cv m f x now) as [r|e] eqn:E.
  - destruct (Qltb thr (confidence r)); [exists r; split; [reflexivity|apply HP; reflexivity]|exact Hrest].
  - exact Hrest.
Qed.

(** C1: for every record the ladder returns a value (no exception escapes)
    whose confidence lies in [0, 1] and whose category is a member of the
    closed enumeration. *)
Theorem classify_with_fallback_total (x : ExtractionResult) (now : string) :
  exists r,
    fst (classify_with_fallback GOOGLE_API_KEY generate load_json str_to_float x now) = Ok r /\
    (0 <= confidence r <= 1)%Q /\ In (category r) all_categories.
Proof.
  set (P := fun r : ClassificationResult =>
              (0 <= confidence r <= 1)%Q /\ In (category r) all_categories).
  assert (HP : forall m f r, cv m f x now = Ok r -> P r).
  { intros m f r E. split; [eapply classify_video_range; exact E|apply category_in_enum]. }
  assert (Hrb : exists r, fst (rule_based_classify x now, @nil call) = Ok r /\ P r).
  { destruct (rule_based_ok x now) as [r [E [_ [_ [Hc _]]]]].
    exists r. split; [exact E|]. split; [|apply category_in_enum].
    split; [apply Hc|]. eapply Qle_trans; [apply Hc|]. unfold Qle; simpl; lia. }
  unfold classify_with_fallback.
  repeat (apply try_rung_preserves; [apply HP|]).
  exact Hrb.
Qed.

Lemma try_rung_step m f thr rs x now :
  try_rung GOOGLE_API_KEY generate load_json str_to_float m f thr x now
    (ladder_spec GOOGLE_API_KEY generate load_json str_to_float rs x now) =
  ladder_spec GOOGLE_API_KEY generate load_json str_to_float ((m, f, thr) :: rs) x now.
Proof.
  unfold try_rung. cbn [ladder_spec].
  destruct (ladder_spec GOOGLE_API_KEY generate load_json str_to_float rs x now) as [res log].
  destruct (classify_video GOOGLE_API_KEY generate load_json str_to_float m f x now) as [r|e];
    [destruct (Qltb thr (confidence r))|]; reflexivity.
Qed.

(** C2: the code's ladder is the specified ladder: primary model
    multimodal (> 0.70), primary text-only (> 0.60), fallback multimodal
    (> 0.70), fallback text-only (> 0.50), then the rule-based heuristic;
    each AI rung is called only after every earlier one raised or returned a
    confidence at or below its threshold, and a raising rung passes on to the
    next one.  The second component is the sequence of AI calls made. *)
Theorem ladder_as_specified (x : ExtractionResult) (now : string) :
  classify_with_fallback GOOGLE_API_KEY generate load_json str_to_float x now =
  ladder_spec GOOGLE_API_KEY generate load_json str_to_float specified_rungs x now.
Proof.
  unfold classify_with_fallback, specified_rungs.
  rewrite <- !try_rung_step. reflexivity.
Qed.

(** C5: without a configured GOOGLE_API_KEY every AI rung raises
    [ValueError] (all four are attempted and caught), and the result is the
    rule-based one: [model_used = "rule-based"] and confidence at most 0.6. *)
Theorem no_credentials_rule_based (x : ExtractionResult) (now : string)
    (Hkey : key_configured GOOGLE_API_KEY = false) :
  classify_with_fallback GOOGLE_API_KEY generate load_json str_to_float x now =
    (rule_based_classify x now,
     [(PRIMARY_MODEL, true); (PRIMARY_MODEL, false);
      (FALLBACK_MODEL, true); (FALLBACK_MODEL, false)]) /\
  exists r,
    fst (classify_with_fallback GOOGLE_API_KEY generate load_json str_to_float x now) = Ok r /\
    model_used r = "rule-based" /\ (confidence r <= 6 # 10)%Q.
Proof.
  assert (E : classify_with_fallback GOOGLE_API_KEY generate load_json str_to_float x now =
    (rule_based_classify x now,
     [(PRIMARY_MODEL, true); (PRIMARY_MODEL, false);
      (FALLBACK_MODEL, true); (FALLBACK_MODEL, false)])).
  { unfold classify_with_fallback, try_rung, classify_video. rewrite Hkey. reflexivity. }
  split; [exact E|].
  rewrite E. destruct (rule_based_ok x now) as [r [Er [Hm [_ [Hc _]]]]].
  exists r. split; [exact Er|]. split; [exact Hm|apply Hc].
Qed.

End WithService.

Lemma no_credentials_rule_based_witness :
  key_configured None = false /\
  (classify_with_fallback None (fun _ _ _ => GenRaise "ConnectionError")
     (fun _ => None) (fun _ => None) (sample_record "Top movies of 2024" "") "t" =
    (rule_based_classify (sample_record "Top movies of 2024" "") "t",
     [(PRIMARY_MODEL, true); (PRIMARY_MODEL, false);
      (FALLBACK_MODEL, true); (FALLBACK_MODEL, false)]) /\
  exists r,
    fst (classify_with_fallback None (fun _ _ _ => GenRaise "ConnectionError")
           (fun _ => None) (fun _ => None) (sample_record "Top movies of 2024" "") "t") = Ok r /\
    model_used r = "rule-based" /\ (confidence r <= 6 # 10)%Q).
Proof.
  split; [reflexivity|].
  apply (no_credentials_rule_based None (fun _ _ _ => GenRaise "ConnectionError")
           (fun _ => None) (fun _ => None) (sample_record "Top movies of 2024" "") "t").
  reflexivity.
Defined.
End LadderClaims.

Module VideoUtilsFacts.
Import Py VideoUtils Observe.

Lemma all_chars_app (p : ascii -> bool) (a b : string) :
  all_chars p (a ++ b) = all_chars p a && all_chars p b.
Proof.
  induction a as [|c a IH]; simpl; [reflexivity|]. rewrite IH. apply andb_assoc.
Qed.

Lemma search_id_shape (lit s c : string) :
  search_id lit s = Some c -> String.length c = 11 /\ all_chars is_idchar c = true.
Proof.
  induction s as [|a s IH]; intros H; cbn [search_id] in H;
  match type of H with
  | (if ?b then _ else _) = _ => destruct b eqn:E
  end.
  - injection H as <-. apply andb_true_iff in E as [E1 E2].
    apply andb_true_iff in E1 as [_ E1]. apply Nat.eqb_eq in E1. auto.
  - discriminate H.
  - injection H as <-. apply andb_true_iff in E as [E1 E2].
    apply andb_true_iff in E1 as [_ E1]. apply Nat.eqb_eq in E1. auto.
  - exact (IH H).
Qed.

Lemma match_id11_shape (s : string) :
  match_id11 s = true -> ends_with_newline s = false ->
  String.length s = 11 /\ all_chars is_idchar s = true.
Proof.
  unfold match_id11, ends_with_newline. intros H Hn.
  apply orb_true_iff in H as [H|H].
  - apply andb_true_iff in H as [H1 H2]. apply Nat.eqb_eq in H1. auto.
  - apply andb_true_iff in H as [H1 H3]. apply andb_true_iff in H1 as [H1 _].
    apply Nat.eqb_eq in H1. rewrite H1 in Hn. simpl in Hn. rewrite H3 in Hn. discriminate Hn.
Qed.

Lemma match_id11_of_shape (s : string) :
  String.length s = 11 -> all_chars is_idchar s = true -> match_id11 s = true.
Proof.
  intros H1 H2. unfold match_id11. rewrite H1, H2. reflexivity.
Qed.

Lemma extract_video_id_shape (cb : string -> bool) (url vid : string) :
  extract_video_id cb url = Ok vid -> ends_with_newline vid = false ->
  String.length vid = 11 /\ all_chars is_idchar vid = true.
Proof.
  unfold extract_video_id. intros H Hn.
  destruct (negb (str_truthy url)); [discriminate H|].
  set (u := strip url) in H. clearbody u.
  destruct (if contains "youtu.be/" u then search_id "youtu.be/" u else None) as [c|] eqn:E1.
  { injection H as <-. destruct (contains "youtu.be/" u); [|discriminate E1]. exact (search_id_shape _ _ _ E1). }
  destruct (if contains "/shorts/" u then search_id "/shorts/" u else None) as [c|] eqn:E2.
  { injection H as <-. destruct (contains "/shorts/" u); [|discriminate E2]. exact (search_id_shape _ _ _ E2). }
  destruct (if contains "/embed/" u then search_id "/embed/" u else None) as [c|] eqn:E3.
  { injection H as <-. destruct (contains "/embed/" u); [|discriminate E3]. exact (search_id_shape _ _ _ E3). }
  destruct (if contains "/v/" u then search_id "/v/" u else None) as [c|] eqn:E4.
  { injection H as <-. destruct (contains "/v/" u); [|discriminate E4]. exact (search_id_shape _ _ _ E4). }
  destruct (contains "youtube.com" u || contains "m.youtube.com" u); [|discriminate H].
  destruct (urlsplit_query cb u) as [q|e]; simpl in H; [|discriminate H].
  destruct (first_value "v" q) as [v|]; [|discriminate H].
  destruct (match_id11 v) eqn:Em; [|discriminate H].
  injection H as <-. exact (match_id11_shape _ Em Hn).
Qed.

Lemma validate_video_id_shape (s : string) :
  ends_with_newline s = false ->
  validate_video_id s = true <-> (String.length s = 11 /\ all_chars is_idchar s = true).
Proof.
  intros Hn. unfold validate_video_id. destruct s as [|c s'].
  - simpl. split; [discriminate|]. intros [H _]. discriminate H.
  - simpl negb. cbv iota. split.
    + intros H. exact (match_id11_shape _ H Hn).
    + intros [H1 H2]. exact (match_id11_of_shape _ H1 H2).
Qed.

(** The pattern [^[a-zA-Z0-9_-]{11}$] also accepts an identifier followed
    by one line feed: [validate_video_id] accepts a 12-character string, and
    a watch URL whose [v] value ends in an encoded line feed yields one. *)
Lemma match_id11_trailing_newline (cb : string -> bool) :
  validate_video_id ("dQw4w9WgXcQ" ++ String newline EmptyString) = true /\
  extract_video_id cb "https://www.youtube.com/watch?v=dQw4w9WgXcQ%0A" =
    Ok ("dQw4w9WgXcQ" ++ String newline EmptyString).
Proof. split; vm_compute; reflexivity. Qed.

End VideoUtilsFacts.

Module VideoUtilsClaims.
Import Py VideoUtils Observe VideoUtilsFacts.

(** C6 (counterexample): extraction is not idempotent. The youtu.be form of
    the video yields "dQw4w9WgXcQ", but applying [extract_video_id] again to
    that identifier raises [ValueError], since a bare identifier contains
    none of the URL patterns the function looks for. (The IP-address check
    of bracketed hosts is not reached on these inputs.) *)
Lemma extract_video_id_not_idempotent :
  extract_video_id (fun _ => true) "https://youtu.be/dQw4w9WgXcQ" = Ok "dQw4w9WgXcQ" /\
  extract_video_id (fun _ => true) "dQw4w9WgXcQ" = Raise "ValueError".
Proof. split; vm_compute; reflexivity. Qed.

(** C6 (amended): [extract_video_id] maps the youtu.be, watch?v= and
    shorts URL forms of the same video to the identifier "dQw4w9WgXcQ",
    and raises [ValueError] on the bare identifier. Every identifier it
    returns that does not end in a line feed is exactly 11 characters drawn
    from ASCII letters, digits, '_' and '-'; among strings not ending in a
    line feed, [validate_video_id] accepts exactly those of that shape. *)
Theorem extract_video_id_formats (cb : string -> bool) :
  extract_video_id cb "https://youtu.be/dQw4w9WgXcQ" = Ok "dQw4w9WgXcQ" /\
  extract_video_id cb "https://www.youtube.com/watch?v=dQw4w9WgXcQ" = Ok "dQw4w9WgXcQ" /\
  extract_video_id cb "https://www.youtube.com/shorts/dQw4w9WgXcQ" = Ok "dQw4w9WgXcQ" /\
  extract_video_id cb "dQw4w9WgXcQ" = Raise "ValueError" /\
  (forall url vid, extract_video_id cb url = Ok vid -> ends_with_newline vid = false ->
     String.length vid = 11 /\ all_chars is_idchar vid = true) /\
  (forall s, ends_with_newline s = false ->
     validate_video_id s = true <-> (String.length s = 11 /\ all_chars is_idchar s = true)).
Proof.
  split; [vm_compute; reflexivity|].
  split; [vm_compute; reflexivity|].
  split; [vm_compute; reflexivity|].
  split; [vm_compute; reflexivity|].
  split.
  - intros url vid. apply extract_video_id_shape.
  - apply validate_video_id_shape.
Qed.

Lemma extract_video_id_formats_witness :
  ends_with_newline "dQw4w9WgXcQ" = false /\
  String.length "dQw4w9WgXcQ" = 11 /\ all_chars is_idchar "dQw4w9WgXcQ" = true.
Proof.
  split; [reflexivity|].
  destruct (extract_video_id_formats (fun _ => true)) as [_ [_ [_ [_ [H _]]]]].
  apply (H "https://www.youtube.com/watch?v=dQw4w9WgXcQ"); vm_compute; reflexivity.
Defined.

End VideoUtilsClaims.

Module ProcessorClaims.
Import Py Schemas Ladder Processors MovieList Observe.

(** C7: on a total failure of its AI call, each processor variant returns
    its minimal dictionary instead of raising: the default processor the
    ["general"] dict whose summary reports the failure, the recipe processor
    the ["recipe"] dict with default fields and an ["error"] entry, and the
    movie-list processor the ["movie_list"] dict with no movies, count 0 and
    extraction method ["failed"]. *)
Theorem processors_total_failure
    (GOOGLE_API_KEY : option string) (model_init_ok : string -> bool)
    (generate_content : string -> ExtractionResult -> gen_outcome)
    (load_json : string -> option pyval) (py_str : pyval -> string)
    (str_to_int : string -> option Z)
    (enrich_movie_with_tmdb : nat -> string -> option Z -> option pydict)
    (x : ExtractionResult) :
  (ai_call_fails GOOGLE_API_KEY generate_content load_json "default" x ->
   default_process GOOGLE_API_KEY model_init_ok generate_content load_json x =
   [("type", PStr "general");
    ("summary", PStr "Summary unavailable - AI processing failed or API key not configured");
    ("key_points", PList []);
    ("topics", PList []);
    ("sentiment", PStr "neutral");
    ("transcript", PStr (get_text_content x))]) /\
  (ai_call_fails GOOGLE_API_KEY generate_content load_json "recipe" x ->
   recipe_process GOOGLE_API_KEY model_init_ok generate_content load_json x =
   [("type", PStr "recipe");
    ("dish_name", PStr (title (metadata x)));
    ("cuisine", PStr "Unknown");
    ("prep_time", PStr "Not specified");
    ("cook_time", PStr "Not specified");
    ("servings", PInt 0);
    ("difficulty", PStr "medium");
    ("ingredients", PList []);
    ("steps", PList []);
    ("tips", PList []);
    ("nutrition_estimate",
      PDict [("calories", PInt 0); ("protein", PStr "Not available");
             ("carbs", PStr "Not available"); ("fat", PStr "Not available")]);
    ("transcript_completeness",
      PStr (if str_truthy (take 8000 (get_text_content x)) then "partial" else "visual_only"));
    ("error", PStr "AI processing failed or API key not configured")]) /\
  (ai_call_fails GOOGLE_API_KEY generate_content load_json "movie_list" x ->
   movie_process GOOGLE_API_KEY generate_content load_json py_str str_to_int
     enrich_movie_with_tmdb x =
   [("type", PStr "movie_list"); ("movies", PList []); ("count", PInt 0);
    ("extraction_method", PStr "failed")]).
Proof.
  split; [|split]; intros [Hk | [[e He] | [t [Ht Hj]]]].
  - unfold default_process, has_model. rewrite Hk. reflexivity.
  - unfold default_process. rewrite He. destruct (negb _); reflexivity.
  - unfold default_process. rewrite Ht. unfold default_parse_response. rewrite Hj.
    destruct (negb _); reflexivity.
  - unfold recipe_process, has_model. rewrite Hk.
    unfold recipe_minimal_response. destruct (str_truthy _); reflexivity.
  - unfold recipe_process. rewrite He. unfold recipe_minimal_response.
    destruct (negb _); destruct (str_truthy _); reflexivity.
  - unfold recipe_process. rewrite Ht. unfold recipe_parse_response. rewrite Hj.
    unfold recipe_minimal_response. destruct (negb _); destruct (str_truthy _); reflexivity.
  - unfold movie_process, extract_movies. rewrite Hk. reflexivity.
  - unfold movie_process, extract_movies. rewrite He. destruct (negb _); reflexivity.
  - unfold movie_process, extract_movies. rewrite Ht. unfold parse_movie_response. rewrite Hj.
    destruct (negb _); reflexivity.
Qed.

Lemma processors_total_failure_witness :
  ai_call_fails (Some "key") (fun _ _ => GenText "not json") (fun _ => None) "recipe"
    (sample_record "Pasta recipe" "") /\
  take 8000 (get_text_content (sample_record "Pasta recipe" "")) = "" /\
  recipe_process (Some "key") (fun _ => true) (fun _ _ => GenText "not json") (fun _ => None)
    (sample_record "Pasta recipe" "") =
  [("type", PStr "recipe");
   ("dish_name", PStr "Pasta recipe");
   ("cuisine", PStr "Unknown");
   ("prep_time", PStr "Not specified");
   ("cook_time", PStr "Not specified");
   ("servings", PInt 0);
   ("difficulty", PStr "medium");
   ("ingredients", PList []);
   ("steps", PList []);
   ("tips", PList []);
   ("nutrition_estimate",
     PDict [("calories", PInt 0); ("protein", PStr "Not available");
            ("carbs", PStr "Not available"); ("fat", PStr "Not available")]);
   ("transcript_completeness", PStr "visual_only");
   ("error", PStr "AI processing failed or API key not configured")].
Proof.
  assert (F : ai_call_fails (Some "key") (fun _ _ => GenText "not json") (fun _ => None) "recipe"
                (sample_record "Pasta recipe" "")).
  { right. right. exists "not json". split; reflexivity. }
  split; [exact F|]. split; [reflexivity|].
  apply (proj1 (proj2 (processors_total_failure (Some "key") (fun _ => true)
           (fun _ _ => GenText "not json") (fun _ => None) (fun _ => "") (fun _ => None)
           (fun _ _ _ => None) (sample_record "Pasta recipe" "")))).
  exact F.
Defined.

End ProcessorClaims.

Module MovieListFacts.
Import Py Schemas Ladder Processors MovieList.

Section Enrich.
Variable enrich_movie_with_tmdb : nat -> string -> option Z -> option pydict.

(** The entries of [raw] combined with their lookups, [o] being the index
    of the first one in [raw_movies]. *)
Fixpoint combined_from (o : nat) (raw : list raw_movie) : list pydict :=
  match raw with
  | [] => []
  | m :: raw' =>
      combine_entry m (enrich_movie_with_tmdb o (rm_title m) (rm_year m))
        :: combined_from (S o) raw'
  end.

Lemma zip_results (o s : nat) (l : list raw_movie) :
  map (fun p => combine_entry (fst p) (snd p))
    (combine l (map (fun jm => enrich_movie_with_tmdb (o + fst jm) (rm_title (snd jm)) (rm_year (snd jm)))
                  (combine (seq s (length l)) l)))
  = combined_from (o + s) l.
Proof.
  revert s. induction l as [|m l IH]; intros s; [reflexivity|].
  simpl. f_equal. rewrite IH. f_equal. lia.
Qed.

Lemma process_chunk_eq (raw : list raw_movie) (i : nat) :
  process_chunk enrich_movie_with_tmdb raw i =
  combined_from i (firstn chunk_size (skipn i raw)).
Proof.
  unfold process_chunk. rewrite zip_results. f_equal. lia.
Qed.

Lemma combined_from_firstn_add (a b o : nat) (l : list raw_movie) :
  combined_from o (firstn (a + b) l) =
  (combined_from o (firstn a l) ++ combined_from (o + a) (firstn b (skipn a l)))%list.
Proof.
  revert o l. induction a as [|a IH]; intros o l.
  - simpl. rewrite Nat.add_0_r. reflexivity.
  - destruct l as [|m l].
    + simpl. destruct b; reflexivity.
    + simpl. f_equal. rewrite IH. f_equal. f_equal. lia.
Qed.

Lemma chunks_eq (raw : list raw_movie) (c k : nat) :
  flat_map (process_chunk enrich_movie_with_tmdb raw) (map (fun k => chunk_size * k) (seq k c)) =
  combined_from (chunk_size * k) (firstn (chunk_size * c) (skipn (chunk_size * k) raw)).
Proof.
  revert k. induction c as [|c IH]; intros k.
  - simpl. replace (chunk_size * 0) with 0 by lia. reflexivity.
  - simpl (seq k (S c)). simpl map. simpl flat_map.
    rewrite IH, process_chunk_eq.
    replace (chunk_size * S c) with (chunk_size + chunk_size * c) by lia.
    rewrite combined_from_firstn_add. f_equal.
    rewrite skipn_skipn.
    replace (chunk_size * S k) with (chunk_size * k + chunk_size) by lia.
    replace (chunk_size + chunk_size * k) with (chunk_size * k + chunk_size) by lia.
    reflexivity.
Qed.

Lemma enrich_all_eq (raw : list raw_movie) :
  enrich_all enrich_movie_with_tmdb raw = combined_from 0 raw.
Proof.
  unfold enrich_all, chunk_starts.
  rewrite chunks_eq. replace (chunk_size * 0) with 0 by lia. simpl skipn.
  rewrite firstn_all2; [reflexivity|].
  unfold chunk_size.
  pose proof (Nat.div_mod_eq (length raw + 5 - 1) 5).
  pose proof (Nat.mod_upper_bound (length raw + 5 - 1) 5).
  lia.
Qed.

Lemma combined_from_length (o : nat) (raw : list raw_movie) :
  length (combined_from o raw) = length raw.
Proof.
  revert o. induction raw as [|m raw IH]; intros o; simpl; [reflexivity|]. rewrite IH. reflexivity.
Qed.

Lemma combined_from_nth (o i : nat) (raw : list raw_movie) (m : raw_movie) :
  nth_error raw i = Some m ->
  nth_error (combined_from o raw) i =
  Some (combine_entry m (enrich_movie_with_tmdb (o + i) (rm_title m) (rm_year m))).
Proof.
  revert o i. induction raw as [|m' raw IH]; intros o i H.
  - destruct i; discriminate H.
  - destruct i as [|i]; simpl in H.
    + injection H as ->. simpl. rewrite Nat.add_0_r. reflexivity.
    + simpl. rewrite (IH (S o) i H). do 3 f_equal. lia.
Qed.

End Enrich.

Lemma dict_get_dict_set (d : pydict) (k : string) (v : pyval) :
  dict_get (dict_set d k v) k = Some v.
Proof.
  induction d as [|[k' v'] d IH]; simpl.
  - rewrite String.eqb_refl. reflexivity.
  - destruct (String.eqb k k') eqn:E; simpl.
    + rewrite E. reflexivity.
    + rewrite E. exact IH.
Qed.

End MovieListFacts.

Module MovieListClaims.
Import Py Schemas Ladder Processors MovieList MovieListFacts.

(** C8: the movie-list processor emits exactly one output entry per
    extracted entry, whatever the enrichment lookups return (an empty
    extraction gives no entries and count 0), and its count is the length
    of that list. The entry at index [i] is the raw [{title, year, rank}]
    dict with ["tmdb_found"] set to [False] when the lookup for it found
    nothing ([None] or an empty dict), and otherwise the looked-up dict with
    ["rank"] set to the rank of the raw entry. *)
Theorem movie_list_count_preserved
    (GOOGLE_API_KEY : option string)
    (generate_content : string -> ExtractionResult -> gen_outcome)
    (load_json : string -> option pyval) (py_str : pyval -> string)
    (str_to_int : string -> option Z)
    (enrich_movie_with_tmdb : nat -> string -> option Z -> option pydict)
    (x : ExtractionResult) :
  let raw_movies := extract_movies GOOGLE_API_KEY generate_content load_json py_str str_to_int x in
  exists (movies : list pydict) (method : string),
    movie_process GOOGLE_API_KEY generate_content load_json py_str str_to_int
      enrich_movie_with_tmdb x =
    [("type", PStr "movie_list");
     ("movies", PList (map PDict movies));
     ("count", PInt (Z.of_nat (length movies)));
     ("extraction_method", PStr method)] /\
    length movies = length raw_movies /\
    forall i m, nth_error raw_movies i = Some m ->
      exists d, nth_error movies i = Some d /\
        (((enrich_movie_with_tmdb i (rm_title m) (rm_year m) = None \/
           enrich_movie_with_tmdb i (rm_title m) (rm_year m) = Some []) /\
          d = (raw_dict m ++ [("tmdb_found", PBool false)])%list) \/
         (exists e, enrich_movie_with_tmdb i (rm_title m) (rm_year m) = Some e /\ e <> [] /\
            d = dict_set e "rank" (PInt (Z.of_nat (rm_rank m))) /\
            dict_get d "rank" = Some (PInt (Z.of_nat (rm_rank m))))).
Proof.
  cbv zeta. unfold movie_process.
  destruct (extract_movies GOOGLE_API_KEY generate_content load_json py_str str_to_int x)
    as [|m0 raw'] eqn:ER.
  - exists [], "failed". split; [reflexivity|]. split; [reflexivity|].
    intros i m H. destruct i; discriminate H.
  - exists (combined_from enrich_movie_with_tmdb 0 (m0 :: raw')),
      (match key_frame_paths x with [] => "text_only" | _ => "multimodal" end).
    split; [rewrite enrich_all_eq; reflexivity|].
    split; [apply combined_from_length|].
    intros i m H. rewrite (combined_from_nth _ 0 i _ m H).
    eexists; split; [reflexivity|]. simpl (0 + i). unfold combine_entry.
    destruct (enrich_movie_with_tmdb i (rm_title m) (rm_year m)) as [[|kv e]|] eqn:Ee.
    + left. split; [right; reflexivity|reflexivity].
    + right. exists (kv :: e). split; [reflexivity|]. split; [discriminate|].
      split; [reflexivity|]. apply dict_get_dict_set.
    + left. split; [left; reflexivity|reflexivity].
Qed.

End MovieListClaims.

Module ExtractorClaims.
Import Py Schemas VideoUtils Extractor Observe.

Lemma transcribe_audio_nonempty (w : option string) (t : string) :
  transcribe_audio w = Some t -> str_truthy t = true.
Proof.
  unfold transcribe_audio. destruct w as [w|]; [|discriminate].
  destruct (str_truthy (strip w)) eqn:E; [|discriminate]. intros H. injection H as <-. exact E.
Qed.

(** Transcription runs only when the captions are falsy, and a transcript
    that is present is a non-empty string: at most one of the two fields
    carries text. *)
Lemma extract_all_text_fields cb get_metadata caption_file_text caption_unlink_ok
    download_audio whisper_text key_frames comments extraction_time url r :
  extract_all cb get_metadata caption_file_text caption_unlink_ok download_audio
    whisper_text key_frames comments extraction_time url = Ok r ->
  (opt_truthy (captions r) = true -> transcript r = None) /\
  (forall t, transcript r = Some t -> str_truthy t = true).
Proof.
  unfold extract_all.
  destruct (extract_video_id cb url) as [vid|e]; simpl; [|discriminate].
  destruct (get_metadata vid) as [md|e]; simpl; [|discriminate].
  intros H. injection H as <-. simpl.
  destruct (opt_truthy (get_captions caption_file_text caption_unlink_ok vid)); simpl.
  - split; [reflexivity|discriminate].
  - split; [discriminate|].
    destruct (download_audio vid) as [p|]; [|discriminate].
    destruct (str_truthy p); [|discriminate]. apply transcribe_audio_nonempty.
Qed.

(** C9 (failing input): a caption file whose only text line is ["<c></c>"]
    makes [get_captions] return the empty string instead of [None]; the
    empty string is falsy, so [extract_all] still transcribes the audio, and
    the record carries both a [captions] and a [transcript] value. *)
Lemma extract_all_captions_and_transcript :
  exists r,
    extract_all (fun _ => true) (fun _ => Ok (sample_metadata "Never Gonna Give You Up" ""))
      (fun _ => Some (file_lines ["WEBVTT"; ""; "00:00.000 --> 00:01.000"; "<c></c>"; ""]))
      (fun _ => true) (fun v => Some ("/tmp/vidbrain/" ++ v ++ ".mp3"))
      (fun _ => Some " We're no strangers to love ") (fun _ => []) (fun _ => []) 0%Q
      "https://youtu.be/dQw4w9WgXcQ" = Ok r /\
    captions r = Some "" /\ transcript r = Some "We're no strangers to love".
Proof.
  eexists. split; [vm_compute; reflexivity|]. split; reflexivity.
Qed.

End ExtractorClaims.

(** * Further properties of the code *)

(** Facts shared by the proofs below. *)
Module ExtraFacts.
Import Py Schemas RuleBased Ladder VideoUtils YouTubeAPI PyFacts SchemaFacts
  RuleBasedFacts LadderClaims.

Lemma mk_ClassificationResult_inv vid cat conf sub rs al m t r :
  mk_ClassificationResult vid cat conf sub rs al m t = Ok r ->
  exists q, conf = Fin q /\ confidence r = q /\ (0 <= q <= 1)%Q /\
    category r = cat /\ model_used r = m /\ cr_video_id r = vid /\
    classified_at r = t /\
    (forall l, al = PList l -> str_list l = Some (alternative_categories r)).
Proof.
  unfold mk_ClassificationResult.
  destruct conf as [q| | |]; try discriminate.
  destruct (Qle_bool 0 q) eqn:H0; destruct (Qle_bool q 1) eqn:H1;
    simpl; try discriminate.
  destruct sub; try discriminate; destruct rs; try discriminate;
    destruct al; try discriminate;
    destruct (str_list l) eqn:Hl; try discriminate;
    intro E; inversion E; subst; clear E; exists q; cbn;
    (split; [reflexivity|]); (split; [reflexivity|]);
    (split; [split; apply Qle_bool_iff; assumption|]);
    repeat split; intros l' E'; inversion E'; subst; exact Hl.
Qed.

Section Service.
Variable GOOGLE_API_KEY : option string.
Variable generate : string -> bool -> ExtractionResult -> gen_outcome.
Variable load_json : string -> option pyval.
Variable str_to_float : string -> option pyfloat.

Lemma classify_video_model m f x now r :
  classify_video GOOGLE_API_KEY generate load_json str_to_float m f x now = Ok r ->
  model_used r = m.
Proof.
  unfold classify_video.
  destruct (negb (key_configured GOOGLE_API_KEY)); [discriminate|].
  destruct (generate m f x) as [e|s]; [discriminate|].
  unfold parse_response.
  destruct (load_json s) as [[| | | | | |d]|]; try discriminate.
  destruct (py_float str_to_float _) as [conf|e]; cbn [bind]; [|discriminate].
  intro E. apply mk_ClassificationResult_inv in E.
  destruct E as (q & _ & _ & _ & _ & Hm & _). exact Hm.
Qed.

(** The ladder always ends in a value. *)
Lemma ladder_ok x now :
  exists r, fst (classify_with_fallback GOOGLE_API_KEY generate load_json str_to_float x now)
            = Ok r.
Proof.
  assert (H : exists r, fst (classify_with_fallback GOOGLE_API_KEY generate load_json
                               str_to_float x now) = Ok r /\ True).
  { unfold classify_with_fallback.
    repeat (apply try_rung_preserves; [intros; exact I|]).
    destruct (rule_based_ok x now) as [r [E _]]. exists r. split; [exact E|exact I]. }
  destruct H as [r [E _]]. exists r. exact E.
Qed.

(** A rung's result that is returned passed the rung's threshold. *)
Lemma try_rung_pass (P : ClassificationResult -> Prop) m f thr x now rest :
  (forall r, classify_video GOOGLE_API_KEY generate load_json str_to_float m f x now = Ok r ->
             (thr < confidence r)%Q -> P r) ->
  (exists r, fst rest = Ok r /\ P r) ->
  exists r, fst (try_rung GOOGLE_API_KEY generate load_json str_to_float m f thr x now rest)
            = Ok r /\ P r.
Proof.
  intros HP Hrest. unfold try_rung.
  destruct (classify_video GOOGLE_API_KEY generate load_json str_to_float m f x now)
    as [r|e] eqn:E; [|exact Hrest].
  destruct (Qltb thr (confidence r)) eqn:T; [|exact Hrest].
  exists r. split; [reflexivity|]. apply HP; [reflexivity|]. apply Qltb_true; exact T.
Qed.
End Service.

Lemma urlsplit_query_raise cb u e : urlsplit_query cb u = Raise e -> e = "ValueError".
Proof.
  unfold urlsplit_query. cbv zeta.
  match goal with |- (if negb ?c then _ else _) = _ -> _ => destruct (negb c) end.
  - intro H; inversion H; reflexivity.
  - match goal with |- match ?m with _ => _ end = _ -> _ => destruct m as [[? ?]|] end;
      discriminate.
Qed.

Lemma extract_video_id_raise cb url e :
  extract_video_id cb url = Raise e -> e = "ValueError".
Proof.
  unfold extract_video_id.
  destruct (negb (str_truthy url)); [intro H; inversion H; reflexivity|].
  repeat match goal with
  | |- match ?m with Some _ => _ | None => _ end = _ -> _ =>
      destruct m; [discriminate|]
  end.
  match goal with |- (if ?b then _ else _) = _ -> _ => destruct b end;
    [|intro H; inversion H; reflexivity].
  destruct (urlsplit_query cb (strip url)) as [q|e'] eqn:Q; cbn [bind].
  - destruct (first_value "v" q) as [vid|]; [destruct (match_id11 vid)|];
      try discriminate; intro H; inversion H; reflexivity.
  - intro H; inversion H; subst. eapply urlsplit_query_raise; exact Q.
Qed.

Lemma get_metadata_raise key api sti vid e :
  get_metadata key api sti vid = Raise e ->
  (e = "ValueError" \/ e = "YouTubeAPIError") /\
  (e = "ValueError" <-> api_key_configured key = true /\ api vid = HttpStatusError 400).
Proof.
  unfold get_metadata.
  destruct (api_key_configured key) eqn:K; cbn [negb].
  - destruct (api vid) as [data|code| |x] eqn:A.
    + destruct (build_metadata sti vid data); intro H; inversion H; subst;
        (split; [right; reflexivity|]); split; [discriminate|intros [_ H']; discriminate].
    + destruct (code =? 403)%Z eqn:C1.
      * intro H; inversion H; subst. split; [right; reflexivity|].
        split; [discriminate|]. intros [_ H']. inversion H'; subst. discriminate.
      * destruct (code =? 400)%Z eqn:C2.
        -- intro H; inversion H; subst. split; [left; reflexivity|].
           apply Z.eqb_eq in C2; subst. tauto.
        -- intro H; inversion H; subst. split; [right; reflexivity|].
           split; [discriminate|]. intros [_ H']. inversion H'; subst. discriminate.
    + intro H; inversion H; subst. split; [right; reflexivity|].
      split; [discriminate|intros [_ H']; discriminate].
    + intro H; inversion H; subst. split; [right; reflexivity|].
      split; [discriminate|intros [_ H']; discriminate].
  - intro H; inversion H; subst. split; [right; reflexivity|].
    split; [discriminate|intros [H' _]; discriminate].
Qed.

End ExtraFacts.

(** ** config/gemini_models.py *)
Module ConfigProps.
Import Py Config.

(** The model recommended for any task string (known or not, in any case)
    is listed by [get_stable_models] and is not deprecated. *)
Theorem recommended_model_stable (task : string) :
  In (get_recommended_model_for_task task) get_stable_models /\
  is_model_deprecated (get_recommended_model_for_task task) = false.
Proof.
  unfold get_recommended_model_for_task.
  destruct (find _ task_map) as [[k m]|] eqn:E.
  - apply find_some in E as [Hin _]. cbn in Hin.
    repeat destruct Hin as [H|Hin]; try contradiction;
      injection H as <- <-; split; vm_compute; auto 10.
  - split; vm_compute; auto 10.
Qed.

End ConfigProps.

(** ** models/schemas.py *)
Module SchemaProps.
Import Py Schemas.

(** [VideoCategory(v)] succeeds exactly on the value strings of the
    members, and gives back the member whose value it is. *)
Theorem VideoCategory_of_iff (v : pyval) (c : VideoCategory) :
  VideoCategory_of v = Ok c <-> v = PStr (value c).
Proof.
  split.
  - unfold VideoCategory_of. destruct v as [| | | |s| |]; try discriminate.
    destruct (find _ all_categories) as [c'|] eqn:E; [|discriminate].
    intro H; inversion H; subst.
    apply find_some in E as [_ E]. apply String.eqb_eq in E. subst. reflexivity.
  - intros ->. destruct c; reflexivity.
Qed.

End SchemaProps.

(** ** services/classifier.py *)
Module ClassifierProps.
Import Py Schemas RuleBased Ladder PyFacts RuleBasedFacts ExtraFacts.

Section Service.
Variable GOOGLE_API_KEY : option string.
Variable generate : string -> bool -> ExtractionResult -> gen_outcome.
Variable load_json : string -> option pyval.
Variable str_to_float : string -> option pyfloat.

(** What [classify_with_fallback] returns is a primary-model result with
    confidence above 0.6, a fallback-model result with confidence above 0.5,
    or a rule-based result with confidence at most 0.6. *)
Theorem classify_with_fallback_thresholds (x : ExtractionResult) (now : string)
    (r : ClassificationResult) :
  fst (classify_with_fallback GOOGLE_API_KEY generate load_json str_to_float x now) = Ok r ->
  (model_used r = PRIMARY_MODEL /\ (6 # 10 < confidence r)%Q) \/
  (model_used r = FALLBACK_MODEL /\ (5 # 10 < confidence r)%Q) \/
  (model_used r = "rule-based" /\ (confidence r <= 6 # 10)%Q).
Proof.
  set (P := fun r : ClassificationResult =>
    (model_used r = PRIMARY_MODEL /\ (6 # 10 < confidence r)%Q) \/
    (model_used r = FALLBACK_MODEL /\ (5 # 10 < confidence r)%Q) \/
    (model_used r = "rule-based" /\ (confidence r <= 6 # 10)%Q)).
  assert (H : exists r, fst (classify_with_fallback GOOGLE_API_KEY generate load_json
                               str_to_float x now) = Ok r /\ P r).
  { unfold classify_with_fallback.
    apply try_rung_pass.
    { intros r0 E T. left. split; [eapply classify_video_model; exact E|].
      eapply Qlt_trans; [|exact T]. reflexivity. }
    apply try_rung_pass.
    { intros r0 E T. left. split; [eapply classify_video_model; exact E|exact T]. }
    apply try_rung_pass.
    { intros r0 E T. right; left. split; [eapply classify_video_model; exact E|].
      eapply Qlt_trans; [|exact T]. reflexivity. }
    apply try_rung_pass.
    { intros r0 E T. right; left. split; [eapply classify_video_model; exact E|exact T]. }
    destruct (rule_based_ok x now) as [r0 [E [Hm [_ [Hc _]]]]].
    exists r0. split; [exact E|]. right; right. split; [exact Hm|apply Hc]. }
  destruct H as [r0 [E HP]]. intro E'. rewrite E in E'. inversion E'; subst. exact HP.
Qed.

End Service.
Lemma classify_with_fallback_thresholds_witness :
  exists r,
    fst (classify_with_fallback None (fun _ _ _ => GenRaise "ConnectionError")
           (fun _ => None) (fun _ => None) (Observe.sample_record "Top movies of 2024" "") "t") = Ok r /\
    ((model_used r = PRIMARY_MODEL /\ (6 # 10 < confidence r)%Q) \/
     (model_used r = FALLBACK_MODEL /\ (5 # 10 < confidence r)%Q) \/
     (model_used r = "rule-based" /\ (confidence r <= 6 # 10)%Q)).
Proof.
  eexists. split; [reflexivity|].
  eapply (classify_with_fallback_thresholds None (fun _ _ _ => GenRaise "ConnectionError")
            (fun _ => None) (fun _ => None) (Observe.sample_record "Top movies of 2024" "") "t").
  reflexivity.
Defined.
End ClassifierProps.

(** ** utils/video_utils.py: [format_duration] *)
Module DurationProps.
Import Py Duration.

(** A negative number of seconds is not rejected: it is rendered as the
    number of seconds modulo one hour (for instance -1 as 59:59). *)
Theorem format_duration_negative (s : Z) (H : (s < 0)%Z) :
  format_duration s = format_duration (s mod 3600).
Proof.
  unfold format_duration.
  assert (Hq : (s / 3600 < 0)%Z) by (apply Z.div_lt_upper_bound; lia).
  pose proof (Z.mod_pos_bound s 3600 ltac:(lia)) as Hb.
  assert (H60 : (s mod 60 = (s mod 3600) mod 60)%Z).
  { rewrite (Z.div_mod s 3600) at 1 by lia.
    replace (3600 * (s / 3600) + s mod 3600)%Z
      with (s mod 3600 + (60 * (s / 3600)) * 60)%Z by ring.
    apply Z.mod_add. lia. }
  rewrite (Z.div_small (s mod 3600) 3600) by lia.
  rewrite (Z.mod_small (s mod 3600) 3600) by lia.
  rewrite <- H60.
  destruct (0 <? s / 3600)%Z eqn:E; [apply Z.ltb_lt in E; lia|]. reflexivity.
Qed.

Lemma format_duration_negative_witness :
  (-1 < 0)%Z /\ format_duration (-1) = format_duration ((-1) mod 3600).
Proof.
  split; [lia|]. apply format_duration_negative. lia.
Defined.

End DurationProps.

(** ** services/youtube_extractor.py: [get_metadata] *)
Module YouTubeAPIProps.
Import Py Schemas YouTubeAPI ExtraFacts.

(** [get_metadata] raises only [ValueError] or [YouTubeAPIError], and it
    raises [ValueError] exactly when the key is set and the API answers
    HTTP 400: a video the API does not find (no [items]) and every other
    failure come out as [YouTubeAPIError]. *)
Theorem get_metadata_errors (key : option string) (api : string -> http_outcome)
    (str_to_int : string -> option Z) (vid e : string) :
  get_metadata key api str_to_int vid = Raise e ->
  (e = "ValueError" \/ e = "YouTubeAPIError") /\
  (e = "ValueError" <-> api_key_configured key = true /\ api vid = HttpStatusError 400).
Proof. apply get_metadata_raise. Qed.

Lemma get_metadata_errors_witness :
  get_metadata (Some "key") (fun _ => HttpJson (PDict [("items", PList [])]))
    (fun _ => None) "dQw4w9WgXcQ" = Raise "YouTubeAPIError" /\
  ("YouTubeAPIError" = "ValueError" \/ "YouTubeAPIError" = "YouTubeAPIError") /\
  ("YouTubeAPIError" = "ValueError" <->
     api_key_configured (Some "key") = true /\
     HttpJson (PDict [("items", PList [])]) = HttpStatusError 400).
Proof.
  split; [reflexivity|].
  apply (get_metadata_errors (Some "key") (fun _ => HttpJson (PDict [("items", PList [])]))
           (fun _ => None) "dQw4w9WgXcQ" "YouTubeAPIError").
  reflexivity.
Defined.

End YouTubeAPIProps.

(** ** routers/analyze.py *)
Module AnalyzeProps.
Import Py Schemas Ladder VideoUtils Extractor YouTubeAPI Analyze ExtraFacts.

Section Endpoint.
Variable check_bracketed_netloc : string -> bool.
Variable YOUTUBE_API_KEY : option string.
Variable videos_api : string -> http_outcome.
Variable str_to_int : string -> option Z.
Variable caption_file_text : string -> option string.
Variable caption_unlink_ok : string -> bool.
Variable download_audio : string -> option string.
Variable whisper_text : string -> option string.
Variable key_frames : string -> list string.
Variable comments : string -> list string.
Variable extraction_time : Q.
Variable GOOGLE_API_KEY : option string.
Variable generate : string -> bool -> ExtractionResult -> gen_outcome.
Variable load_json : string -> option pyval.
Variable str_to_float : string -> option pyfloat.
Variable new_job_id : string.
Variable now : string.

Let analyze := analyze_video check_bracketed_netloc YOUTUBE_API_KEY videos_api str_to_int
  caption_file_text caption_unlink_ok download_audio whisper_text key_frames comments
  extraction_time GOOGLE_API_KEY generate load_json str_to_float new_job_id now.

(** The endpoint's outcome is decided by the URL and the metadata request:
    a URL without a video id gives HTTP 400; a metadata [ValueError] (an
    HTTP 400 of the API) gives HTTP 400 and any other metadata error HTTP
    500 "YouTube API error"; otherwise the job is [COMPLETED] with the
    extracted metadata and the category of [classify_with_fallback], which
    never fails.  In particular "Analysis failed" never occurs. *)
Theorem analyze_video_outcome (youtube_url : string) :
  match extract_video_id check_bracketed_netloc youtube_url with
  | Raise _ => analyze youtube_url = HTTPException 400 "Invalid YouTube URL: "
  | Ok vid =>
      match get_metadata YOUTUBE_API_KEY videos_api str_to_int vid with
      | Raise e =>
          analyze youtube_url =
            if String.eqb e "ValueError" then HTTPException 400 "Invalid YouTube URL: "
            else HTTPException 500 "YouTube API error: "
      | Ok md =>
          exists x c,
            analyze youtube_url =
              Response {| job_id := new_job_id; status := COMPLETED;
                          ar_category := Some (category c); ar_metadata := Some md;
                          result := Some x; error := None |} /\
            metadata x = md /\
            fst (classify_with_fallback GOOGLE_API_KEY generate load_json str_to_float
                   x now) = Ok c
      end
  end.
Proof.
  unfold analyze, analyze_video, extract, extract_all.
  destruct (extract_video_id check_bracketed_netloc youtube_url) as [vid|e] eqn:EV;
    cbn [bind].
  - destruct (get_metadata YOUTUBE_API_KEY videos_api str_to_int vid) as [md|e] eqn:EM;
      cbn [bind].
    + match goal with
      | |- context [fst (classify_with_fallback ?a ?b ?c ?d ?x ?n)] =>
          destruct (ladder_ok a b c d x n) as [c0 Hc]; rewrite Hc
      end.
      cbn [bind]. do 2 eexists. split; [reflexivity|]. split; [reflexivity|exact Hc].
    + destruct (get_metadata_raise _ _ _ _ _ EM) as [[-> | ->] _]; reflexivity.
  - apply extract_video_id_raise in EV. subst. reflexivity.
Qed.

(** A video the YouTube API does not find (a response without [items])
    is answered with HTTP 500 "YouTube API error", not with the 400 of an
    invalid URL. *)
Theorem analyze_video_not_found (youtube_url vid : string) (data : pydict) :
  api_key_configured YOUTUBE_API_KEY = true ->
  extract_video_id check_bracketed_netloc youtube_url = Ok vid ->
  videos_api vid = HttpJson (PDict data) ->
  Processors.py_truthy (dict_get_default data "items" PNone) = false ->
  analyze youtube_url = HTTPException 500 "YouTube API error: ".
Proof.
  intros K EV A I.
  unfold analyze, analyze_video, extract, extract_all.
  rewrite EV. cbn [bind].
  unfold get_metadata. rewrite K, A. cbn [negb].
  unfold build_metadata. unfold get_attr at 1. cbn [bind]. rewrite I. reflexivity.
Qed.

End Endpoint.

Lemma analyze_video_not_found_witness :
  api_key_configured (Some "key") = true /\
  extract_video_id (fun _ => true) "https://youtu.be/dQw4w9WgXcQ" = Ok "dQw4w9WgXcQ" /\
  analyze_video (fun _ => true) (Some "key") (fun _ => HttpJson (PDict [])) (fun _ => None)
    (fun _ => None) (fun _ => true) (fun _ => None) (fun _ => None) (fun _ => [])
    (fun _ => []) 0 None (fun _ _ _ => GenRaise "Exception") (fun _ => None)
    (fun _ => None) "job" "now" "https://youtu.be/dQw4w9WgXcQ" =
  HTTPException 500 "YouTube API error: ".
Proof.
  split; [reflexivity|]. split; [vm_compute; reflexivity|].
  apply (analyze_video_not_found (fun _ => true) (Some "key") (fun _ => HttpJson (PDict []))
           (fun _ => None) (fun _ => None) (fun _ => true) (fun _ => None) (fun _ => None)
           (fun _ => []) (fun _ => []) 0 None (fun _ _ _ => GenRaise "Exception")
           (fun _ => None) (fun _ => None) "job" "now"
           "https://youtu.be/dQw4w9WgXcQ" "dQw4w9WgXcQ" []).
  - reflexivity.
  - vm_compute. reflexivity.
  - reflexivity.
  - reflexivity.
Defined.

End AnalyzeProps.

(** ** services/classifier.py: [_parse_response] and [rule_based_classify] *)
Module ClassifierParseProps.
Import Py Schemas RuleBased Ladder PyFacts SchemaFacts RuleBasedFacts ExtraFacts.

Section Service.
Variable load_json : string -> option pyval.
Variable str_to_float : string -> option pyfloat.

(** A parsed classification keeps the model name and the video id; its
    category is the one named by the ["category"] string when that string
    is a category value, and [UNKNOWN] otherwise (a missing or unknown
    category never raises); a missing ["confidence"] gives 0.5. *)
Theorem parse_response_fields (model_name text : string) (x : ExtractionResult)
    (now : string) (r : ClassificationResult) :
  parse_response load_json str_to_float model_name text x now = Ok r ->
  exists data, load_json text = Some (PDict data) /\
    model_used r = model_name /\ cr_video_id r = video_id (metadata x) /\
    classified_at r = Some now /\
    (dict_get_default data "category" (PStr "unknown") = PStr (value (category r)) \/
     (category r = UNKNOWN /\
      forall c, dict_get_default data "category" (PStr "unknown") <> PStr (value c))) /\
    (dict_get data "confidence" = None -> confidence r = 1 # 2).
Proof.
  unfold parse_response.
  destruct (load_json text) as [[| | | | | |data]|]; try discriminate.
  destruct (py_float str_to_float (dict_get_default data "confidence" (PFloat (Fin (1 # 2)))))
    as [conf|e] eqn:Hc; cbn [bind]; [|discriminate].
  intro E. apply mk_ClassificationResult_inv in E.
  destruct E as (q & Econf & Hq & _ & Hcat & Hm & Hv & Ht & _).
  exists data. split; [reflexivity|].
  split; [exact Hm|]. split; [exact Hv|]. split; [exact Ht|]. split.
  - destruct (VideoCategory_of (dict_get_default data "category" (PStr "unknown")))
      as [c|e] eqn:Ecat.
    + left. rewrite Hcat. unfold VideoCategory_of in Ecat.
      destruct (dict_get_default data "category" (PStr "unknown")) as [| | | |s| |];
        try discriminate.
      destruct (find _ all_categories) as [c'|] eqn:F; [|discriminate].
      inversion Ecat; subst. apply find_some in F as [_ F].
      apply String.eqb_eq in F. subst. reflexivity.
    + right. split; [exact Hcat|]. intros c Ec. rewrite Ec in Ecat.
      destruct c; discriminate Ecat.
  - intro Hn. unfold dict_get_default in Hc. rewrite Hn in Hc. cbn in Hc.
    rewrite Hq. congruence.
Qed.

(** A ["confidence"] float outside [0, 1] (or NaN, or infinite) is not
    clamped: the result fails validation. *)
Theorem parse_response_confidence_out_of_range (model_name text : string)
    (x : ExtractionResult) (now : string) (data : pydict) (f : pyfloat) :
  load_json text = Some (PDict data) ->
  dict_get data "confidence" = Some (PFloat f) ->
  match f with Fin q => (q < 0 \/ 1 < q)%Q | _ => True end ->
  parse_response load_json str_to_float model_name text x now = Raise "ValidationError".
Proof.
  intros Hj Hc Hf. unfold parse_response. rewrite Hj.
  unfold dict_get_default. rewrite Hc. cbn [py_float bind].
  unfold mk_ClassificationResult.
  destruct f as [q| | |]; try reflexivity.
  destruct Hf as [Hf|Hf].
  - destruct (Qle_bool 0 q) eqn:E; [|reflexivity].
    apply Qle_bool_iff in E. exfalso. apply (Qlt_not_le _ _ Hf E).
  - destruct (Qle_bool q 1) eqn:E; [|rewrite andb_false_r; reflexivity].
    apply Qle_bool_iff in E. exfalso. apply (Qlt_not_le _ _ Hf E).
Qed.
End Service.

Lemma parse_response_confidence_out_of_range_witness :
  (fun _ : string => Some (PDict [("confidence", PFloat (Fin 2))])) "{}" =
    Some (PDict [("confidence", PFloat (Fin 2))]) /\
  dict_get [("confidence", PFloat (Fin 2))] "confidence" = Some (PFloat (Fin 2)) /\
  (2 < 0 \/ 1 < 2)%Q /\
  parse_response (fun _ => Some (PDict [("confidence", PFloat (Fin 2))])) (fun _ => None)
    "gemini-2.5-flash" "{}" (Observe.sample_record "t" "d") "now" = Raise "ValidationError".
Proof.
  split; [reflexivity|]. split; [reflexivity|].
  split; [right; reflexivity|].
  apply (parse_response_confidence_out_of_range
           (fun _ => Some (PDict [("confidence", PFloat (Fin 2))])) (fun _ => None)
           "gemini-2.5-flash" "{}" (Observe.sample_record "t" "d") "now"
           [("confidence", PFloat (Fin 2))] (Fin 2)).
  - reflexivity.
  - reflexivity.
  - right; reflexivity.
Defined.

Definition ins_step (acc : list (VideoCategory * nat)) (p : VideoCategory * nat) :=
  insert_desc p acc.

Lemma insert_desc_perm p l : Permutation (insert_desc p l) (p :: l).
Proof.
  induction l as [|q l IH]; simpl; [reflexivity|].
  destruct (snd p <=? snd q); [|reflexivity].
  eapply perm_trans; [apply perm_skip, IH|]. apply perm_swap.
Qed.

Lemma fold_insert_perm s acc :
  Permutation (fold_left ins_step s acc) (s ++ acc).
Proof.
  revert acc. induction s as [|a s IH]; intros acc; simpl; [reflexivity|].
  eapply perm_trans; [apply IH|].
  eapply perm_trans; [apply Permutation_app_head, insert_desc_perm|].
  apply Permutation_sym, Permutation_middle.
Qed.

Lemma insert_desc_head b l q : exists t, insert_desc q (b :: l) = arg_step b q :: t.
Proof.
  simpl. unfold arg_step.
  destruct (Nat.leb_spec (snd q) (snd b)); destruct (Nat.ltb_spec (snd b) (snd q));
    try lia; eexists; reflexivity.
Qed.

Lemma fold_insert_head s b l :
  exists t, fold_left ins_step s (b :: l) = fold_left arg_step s b :: t.
Proof.
  revert b l. induction s as [|a s IH]; intros b l; cbn [fold_left]; [exists l; reflexivity|].
  destruct (insert_desc_head b l a) as [t Et]. unfold ins_step at 2. rewrite Et.
  apply IH.
Qed.

Lemma in_firstn {A} (k : nat) (l : list A) (a : A) : In a (firstn k l) -> In a l.
Proof.
  revert l. induction k as [|k IH]; intros l H; [destruct H|].
  destruct l as [|b l]; [destruct H|]. destruct H as [H|H]; [left; exact H|].
  right. apply IH. exact H.
Qed.

Lemma value_inj (a b : VideoCategory) : value a = value b -> a = b.
Proof. intro H; destruct a; destruct b; try reflexivity; discriminate H. Qed.

Lemma rules_nodup : NoDup (map fst rules).
Proof.
  cbn [map fst rules].
  repeat (apply NoDup_cons;
    [cbn; intro H; repeat destruct H as [H|H]; try discriminate; contradiction|]).
  apply NoDup_nil.
Qed.

(** The alternatives of a rule-based result are at most two category values,
    none of them the chosen category, each of a category with a positive
    keyword score. *)
Theorem rule_based_alternatives (x : ExtractionResult) (now : string)
    (r : ClassificationResult) :
  rule_based_classify x now = Ok r ->
  length (alternative_categories r) <= 2 /\
  ~ In (value (category r)) (alternative_categories r) /\
  forall a, In a (alternative_categories r) ->
    exists c n, a = value c /\ In (c, n) (scores (search_text x)) /\ 0 < n.
Proof.
  unfold rule_based_classify.
  pose proof (scores_fst (search_text x)) as Hfst.
  set (sc := scores (search_text x)) in *. clearbody sc.
  destruct (is_empty sc || (max_score sc =? 0)).
  - intro E. apply mk_ClassificationResult_inv in E.
    destruct E as (q & _ & _ & _ & _ & _ & _ & _ & Hal).
    specialize (Hal [] eq_refl). cbn in Hal. injection Hal as Hal.
    rewrite <- Hal. cbn. split; [lia|]. split; [tauto|]. intros a [].
  - destruct (argmax sc) as [[c n]|] eqn:A; [|discriminate].
    intro E. apply mk_ClassificationResult_inv in E.
    destruct E as (q & _ & _ & _ & Hcat & _ & _ & _ & Hal).
    specialize (Hal _ eq_refl). rewrite str_list_map_PStr in Hal.
    injection Hal as Hal. rewrite <- Hal, Hcat. clear Hal Hcat.
    destruct sc as [|p s]; [discriminate|].
    unfold alternatives, sort_desc.
    change (fun (acc : list (VideoCategory * nat)) p => insert_desc p acc) with ins_step.
    cbn [fold_left]. change (ins_step [] p) with [p].
    destruct (fold_insert_head s p []) as [t Et]. rewrite Et.
    cbn [argmax] in A. injection A as A.
    change (fun (best q : VideoCategory * nat) => if snd best <? snd q then q else best)
      with arg_step in A.
    rewrite A. cbn [skipn].
    assert (Hp : Permutation ((c, n) :: t) (p :: s)).
    { rewrite <- A, <- Et. eapply perm_trans; [apply fold_insert_perm|].
      apply Permutation_sym, Permutation_cons_append. }
    assert (Hnd : NoDup (map fst ((c, n) :: t))).
    { eapply Permutation_NoDup; [apply Permutation_map, Permutation_sym, Hp|].
      rewrite Hfst. apply rules_nodup. }
    cbn [map fst] in Hnd. apply NoDup_cons_iff in Hnd as [Hc _].
    split; [|split].
    + rewrite length_map. eapply Nat.le_trans; [apply filter_length_le|].
      rewrite length_firstn. lia.
    + intro H. apply in_map_iff in H as [[c' n'] [Ev Hin]]. cbn in Ev.
      apply value_inj in Ev. subst c'.
      apply filter_In in Hin as [Hin _]. apply in_firstn in Hin.
      apply Hc. apply (in_map fst) in Hin. exact Hin.
    + intros a H. apply in_map_iff in H as [[c' n'] [Ev Hin]]. cbn in Ev.
      apply filter_In in Hin as [Hin Hpos]. apply in_firstn in Hin.
      exists c', n'. split; [symmetry; exact Ev|]. split.
      * apply (Permutation_in _ Hp). right. exact Hin.
      * apply Nat.ltb_lt. exact Hpos.
Qed.

Lemma parse_response_fields_witness :
  exists r,
    parse_response (fun _ => Some (PDict [("category", PStr "movie_list")])) (fun _ => None)
      "gemini-2.5-flash" "{}" (Observe.sample_record "t" "d") "now" = Ok r /\
    exists data, (fun _ : string => Some (PDict [("category", PStr "movie_list")])) "{}" = Some (PDict data) /\
      model_used r = "gemini-2.5-flash" /\
      cr_video_id r = video_id (metadata (Observe.sample_record "t" "d")) /\
      classified_at r = Some "now" /\
      (dict_get_default data "category" (PStr "unknown") = PStr (value (category r)) \/
       (category r = UNKNOWN /\
        forall c, dict_get_default data "category" (PStr "unknown") <> PStr (value c))) /\
      (dict_get data "confidence" = None -> confidence r = 1 # 2).
Proof.
  eexists. split; [reflexivity|].
  eapply (parse_response_fields (fun _ => Some (PDict [("category", PStr "movie_list")]))
            (fun _ => None) "gemini-2.5-flash" "{}" (Observe.sample_record "t" "d") "now").
  reflexivity.
Defined.

Lemma rule_based_alternatives_witness :
  exists r,
    rule_based_classify (Observe.sample_record "Top movies of 2024" "") "t" = Ok r /\
    length (alternative_categories r) <= 2 /\
    ~ In (value (category r)) (alternative_categories r) /\
    forall a, In a (alternative_categories r) ->
      exists c n, a = value c /\
        In (c, n) (scores (search_text (Observe.sample_record "Top movies of 2024" ""))) /\ 0 < n.
Proof.
  eexists. split; [reflexivity|].
  eapply (rule_based_alternatives (Observe.sample_record "Top movies of 2024" "") "t").
  reflexivity.
Defined.
End ClassifierParseProps.

(** ** services/processors: default.py and recipe.py *)
Module ProcessorProps.
Import Py Schemas Ladder Processors.

Lemma dict_get_set_same (d : pydict) (k : string) (v : pyval) :
  dict_get (dict_set d k v) k = Some v.
Proof.
  induction d as [|[k' v'] d IH]; simpl.
  - rewrite String.eqb_refl. reflexivity.
  - destruct (String.eqb k k') eqn:E; simpl; rewrite E; [reflexivity|exact IH].
Qed.

Lemma dict_get_set_other (d : pydict) (k k' : string) (v : pyval) :
  k' <> k -> dict_get (dict_set d k v) k' = dict_get d k'.
Proof.
  intro Hne. induction d as [|[k0 v0] d IH]; simpl.
  - destruct (String.eqb_spec k' k); [contradiction|reflexivity].
  - destruct (String.eqb_spec k k0) as [->|Hk]; simpl.
    + destruct (String.eqb_spec k' k0); [contradiction|reflexivity].
    + destruct (String.eqb k' k0); [reflexivity|exact IH].
Qed.

Lemma repair_same cond k v d :
  cond (Some v) = true -> cond (dict_get (repair cond k v d) k) = true.
Proof.
  intro Hv. unfold repair. destruct (cond (dict_get d k)) eqn:E; [exact E|].
  rewrite dict_get_set_same. exact Hv.
Qed.

Lemma repair_other cond k v d k' :
  k' <> k -> dict_get (repair cond k v d) k' = dict_get d k'.
Proof.
  intro Hne. unfold repair. destruct (cond (dict_get d k)); [reflexivity|].
  apply dict_get_set_other. exact Hne.
Qed.

Lemma repair_implies (cond cond' : option pyval -> bool) k v d :
  (forall o, cond o = true -> cond' o = true) -> cond' (Some v) = true ->
  cond' (dict_get (repair cond k v d) k) = true.
Proof.
  intros Hc Hv. unfold repair. destruct (cond (dict_get d k)) eqn:E.
  - apply Hc. exact E.
  - rewrite dict_get_set_same. exact Hv.
Qed.

(** The value of the key [k] after a chain of [repair]s: skip the repairs
    of other keys, then use the one of [k]. *)
Ltac repaired :=
  repeat (rewrite repair_other by discriminate);
  match goal with
  | |- context [dict_get (repair ?c ?k ?v ?d) ?k] =>
      let H := fresh "H" in
      pose proof (repair_same c k v d) as H; cbn beta in H; apply H;
      first [reflexivity
            | match goal with |- context [if ?b then _ else _] => destruct b; reflexivity end]
  end.

Section Service.
Variable GOOGLE_API_KEY : option string.
Variable model_init_ok : string -> bool.
Variable generate_content : string -> ExtractionResult -> gen_outcome.
Variable load_json : string -> option pyval.

(** Whatever the model answers (or if it is unavailable), the general
    analysis has a string ["type"], ["summary"] and ["transcript"], list
    ["key_points"] and ["topics"], and a ["sentiment"] among positive,
    negative and neutral. *)
Theorem default_process_schema (x : ExtractionResult) :
  let d := default_process GOOGLE_API_KEY model_init_ok generate_content load_json x in
  is_str (dict_get d "type") = true /\ is_str (dict_get d "summary") = true /\
  is_list (dict_get d "key_points") = true /\ is_list (dict_get d "topics") = true /\
  in_strs (dict_get d "sentiment") ["positive"; "negative"; "neutral"] = true /\
  is_str (dict_get d "transcript") = true.
Proof.
  cbv zeta. unfold default_process.
  assert (Hmin : forall t, let d := default_minimal_response t in
    is_str (dict_get d "type") = true /\ is_str (dict_get d "summary") = true /\
    is_list (dict_get d "key_points") = true /\ is_list (dict_get d "topics") = true /\
    in_strs (dict_get d "sentiment") ["positive"; "negative"; "neutral"] = true /\
    is_str (dict_get d "transcript") = true).
  { intro t. cbv zeta. repeat split. }
  destruct (negb (has_model GOOGLE_API_KEY model_init_ok "default")); [apply Hmin|].
  destruct (generate_content "default" x) as [e|t]; [apply Hmin|].
  unfold default_parse_response.
  destruct (load_json (clean_fences t)) as [[| | | | | |result]|]; try apply Hmin.
  repeat split; repaired.
Qed.

(** Whatever the model answers (or if it is unavailable), the recipe has
    type "recipe", string ["dish_name"], ["cuisine"], ["prep_time"] and
    ["cook_time"], an int ["servings"] (a Python bool included), a
    ["difficulty"] among easy, medium and hard, list ["ingredients"],
    ["steps"] and ["tips"], a dict ["nutrition_estimate"] and a truthy
    ["transcript_completeness"]. *)
Theorem recipe_process_schema (x : ExtractionResult) :
  let d := recipe_process GOOGLE_API_KEY model_init_ok generate_content load_json x in
  dict_get d "type" = Some (PStr "recipe") /\
  is_str (dict_get d "dish_name") = true /\ is_str (dict_get d "cuisine") = true /\
  is_str (dict_get d "prep_time") = true /\ is_str (dict_get d "cook_time") = true /\
  is_int (dict_get d "servings") = true /\
  in_strs (dict_get d "difficulty") ["easy"; "medium"; "hard"] = true /\
  is_list (dict_get d "ingredients") = true /\ is_list (dict_get d "steps") = true /\
  is_list (dict_get d "tips") = true /\ is_dict (dict_get d "nutrition_estimate") = true /\
  match dict_get d "transcript_completeness" with
  | Some v => py_truthy v | None => false end = true.
Proof.
  cbv zeta. unfold recipe_process.
  assert (Hmin : forall tt tc, let d := recipe_minimal_response tt tc in
    dict_get d "type" = Some (PStr "recipe") /\
    is_str (dict_get d "dish_name") = true /\ is_str (dict_get d "cuisine") = true /\
    is_str (dict_get d "prep_time") = true /\ is_str (dict_get d "cook_time") = true /\
    is_int (dict_get d "servings") = true /\
    in_strs (dict_get d "difficulty") ["easy"; "medium"; "hard"] = true /\
    is_list (dict_get d "ingredients") = true /\ is_list (dict_get d "steps") = true /\
    is_list (dict_get d "tips") = true /\ is_dict (dict_get d "nutrition_estimate") = true /\
    match dict_get d "transcript_completeness" with
    | Some v => py_truthy v | None => false end = true).
  { intros tt tc. cbv zeta. cbn. repeat split. destruct (str_truthy tc); reflexivity. }
  destruct (negb (has_model GOOGLE_API_KEY model_init_ok "recipe")); [apply Hmin|].
  destruct (generate_content "recipe" x) as [e|t]; [apply Hmin|].
  unfold recipe_parse_response.
  destruct (load_json (clean_fences t)) as [[| | | | | |result]|]; try apply Hmin.
  cbv zeta.
  split; [repeat (rewrite repair_other by discriminate); apply dict_get_set_same|].
  split.
  { repeat (rewrite repair_other by discriminate).
    apply repair_implies; [|reflexivity].
    intros [[| | | |s| |]|]; try discriminate; reflexivity. }
  repeat split; repaired.
Qed.
End Service.

End ProcessorProps.

(** ** services/processors/movie_list.py: [_parse_movie_response] *)
Module MovieListProps.
Import Py Schemas Processors MovieList.

Section Validate.
Variable py_str : pyval -> string.
Variable str_to_int : string -> option Z.

Let validate := validate_movies py_str str_to_int.

(** An entry kept from a dict with a ["title"]. *)
Definition entry_of (d : pydict) (t : pyval) (k : nat) : raw_movie :=
  mk_raw_movie (strip (match t with PStr s => s | v => py_str v end))
    (parse_year str_to_int (dict_get d "year")) k.

Lemma validate_movies_spec (i : nat) (movies : list pyval) :
  let raw := validate i movies in
  StronglySorted lt (map rm_rank raw) /\
  (forall m, In m raw -> i <= rm_rank m /\
     exists d t, nth_error movies (rm_rank m - i) = Some (PDict d) /\
       dict_get d "title" = Some t /\ m = entry_of d t (rm_rank m)) /\
  (forall k d t, nth_error movies k = Some (PDict d) -> dict_get d "title" = Some t ->
     In (entry_of d t (i + k)) raw).
Proof.
  cbv zeta. unfold validate. revert i.
  induction movies as [|v movies IH]; intros i.
  - cbn. split; [constructor|]. split; [intros m []|]. intros [|k] d t H; discriminate H.
  - destruct (IH (S i)) as (Hs & Hin & Hc).
    assert (Hge : forall m, In m (validate_movies py_str str_to_int (S i) movies) ->
                            i < rm_rank m) by (intros m Hm; apply Hin in Hm; lia).
    assert (Tail : forall m, In m (validate_movies py_str str_to_int (S i) movies) ->
      i <= rm_rank m /\ exists d t, nth_error (v :: movies) (rm_rank m - i) = Some (PDict d) /\
        dict_get d "title" = Some t /\ m = entry_of d t (rm_rank m)).
    { intros m Hm. destruct (Hin m Hm) as [Hle [d [t [Hn Ht]]]].
      split; [lia|]. exists d, t.
      replace (rm_rank m - i) with (S (rm_rank m - S i)) by lia. exact (conj Hn Ht). }
    assert (TailC : forall k d t, nth_error movies k = Some (PDict d) ->
      dict_get d "title" = Some t ->
      In (entry_of d t (i + S k)) (validate_movies py_str str_to_int (S i) movies)).
    { intros k d t Hn Ht. replace (i + S k) with (S i + k) by lia. apply (Hc k d t Hn Ht). }
    destruct v as [| | | | | |d0]; cbn [validate_movies];
      try (split; [exact Hs|]; split; [exact Tail|];
           intros [|k] d t Hn Ht; [discriminate Hn|apply (TailC k d t Hn Ht)]).
    destruct (dict_get d0 "title") as [t0|] eqn:T0.
    + split; [|split].
      * cbn [map rm_rank]. constructor; [exact Hs|].
        apply Forall_forall. intros k Hk. apply in_map_iff in Hk as [m [<- Hm]].
        apply Hge. exact Hm.
      * intros m [<-|Hm]; [|apply Tail; exact Hm].
        cbn [rm_rank]. split; [lia|]. exists d0, t0.
        rewrite Nat.sub_diag. split; [reflexivity|]. split; [exact T0|reflexivity].
      * intros [|k] d t Hn Ht.
        -- injection Hn as <-. rewrite T0 in Ht. injection Ht as <-.
           left. rewrite Nat.add_0_r. reflexivity.
        -- right. apply (TailC k d t Hn Ht).
    + split; [exact Hs|]. split; [exact Tail|].
      intros [|k] d t Hn Ht.
      * injection Hn as <-. rewrite T0 in Ht. discriminate Ht.
      * apply (TailC k d t Hn Ht).
Qed.

(** The movies kept from the model's JSON list are its dict entries with a
    ["title"], in list order, each ranked by its 1-based position in the
    list: ranks strictly increase, and an entry dropped (not a dict, or
    without a title) leaves a gap in the ranks instead of renumbering. *)
Theorem validate_movies_ranks (movies : list pyval) :
  let raw := validate 1 movies in
  StronglySorted lt (map rm_rank raw) /\
  (forall m, In m raw -> 1 <= rm_rank m /\
     exists d t, nth_error movies (rm_rank m - 1) = Some (PDict d) /\
       dict_get d "title" = Some t /\ m = entry_of d t (rm_rank m)) /\
  (forall k d t, nth_error movies k = Some (PDict d) -> dict_get d "title" = Some t ->
     In (entry_of d t (S k)) raw).
Proof. apply (validate_movies_spec 1 movies). Qed.
End Validate.

End MovieListProps.

(** ** utils/video_utils.py: [parse_iso8601_duration] *)
Module IsoDurationProps.
Import Py RuleBased VideoUtils VideoUtilsFacts Extractor Duration.

(** An optional ISO 8601 component: the decimal count and its unit letter. *)
Definition opt_seg (o : option nat) (u : ascii) : string :=
  match o with Some n => nat_str n ++ String u EmptyString | None => EmptyString end.

(** [P[nD]T[nH][nM][nS]] *)
Definition iso_duration (d h m s : option nat) : string :=
  "P" ++ opt_seg d "D" ++ "T" ++ opt_seg h "H" ++ opt_seg m "M" ++ opt_seg s "S".

Definition count (o : option nat) : nat := match o with Some n => n | None => 0 end.

Lemma str_app_assoc (a b c : string) : (a ++ b) ++ c = a ++ (b ++ c).
Proof. induction a as [|x a IH]; simpl; [reflexivity|]. rewrite IH. reflexivity. Qed.

Lemma str_app_nil (s : string) : s ++ EmptyString = s.
Proof. induction s as [|c s IH]; simpl; [reflexivity|]. rewrite IH. reflexivity. Qed.

Lemma digit_char (n : nat) : is_digit (ascii_of_nat (48 + n mod 10)) = true /\
  nat_of_ascii (ascii_of_nat (48 + n mod 10)) - 48 = n mod 10.
Proof.
  pose proof (Nat.mod_upper_bound n 10 ltac:(lia)).
  rewrite Ascii.nat_ascii_embedding by lia.
  unfold is_digit. rewrite Ascii.nat_ascii_embedding by lia.
  split; [apply andb_true_iff; split; apply Nat.leb_le; lia|lia].
Qed.

Lemma decimal_value_app (a : nat) (x y : string) :
  decimal_value a (x ++ y) = decimal_value (decimal_value a x) y.
Proof. revert a. induction x as [|c x IH]; intro a; simpl; [reflexivity|]. apply IH. Qed.

Lemma digits_shape (fuel n : nat) (acc : string) :
  n < fuel ->
  exists D, digits fuel n acc = D ++ acc /\ all_chars is_digit D = true /\
    D <> EmptyString /\ decimal_value 0 D = n.
Proof.
  revert n acc. induction fuel as [|f IH]; intros n acc Hn; [lia|].
  cbn [digits]. destruct (digit_char n) as [Hd Hv].
  destruct (Nat.ltb_spec n 10) as [Hlt|Hge].
  - exists (String (ascii_of_nat (48 + n mod 10)) EmptyString).
    split; [reflexivity|]. split; [cbn [all_chars]; rewrite Hd; reflexivity|].
    split; [discriminate|]. cbn [decimal_value]. rewrite Hv. rewrite Nat.mod_small by lia. lia.
  - assert (Hq : n / 10 < f).
    { assert (n / 10 < n) by (apply Nat.div_lt; lia). lia. }
    destruct (IH (n / 10) (String (ascii_of_nat (48 + n mod 10)) acc) Hq)
      as [D [E [Ha [Hne Hval]]]].
    exists (D ++ String (ascii_of_nat (48 + n mod 10)) EmptyString).
    split; [rewrite E, str_app_assoc; reflexivity|].
    split; [rewrite all_chars_app, Ha; cbn [all_chars]; rewrite Hd; reflexivity|].
    split; [destruct D; [contradiction|discriminate]|].
    rewrite decimal_value_app, Hval. cbn [decimal_value]. rewrite Hv.
    pose proof (Nat.div_mod_eq n 10). lia.
Qed.

Lemma nat_str_shape (n : nat) :
  all_chars is_digit (nat_str n) = true /\ nat_str n <> EmptyString /\
  decimal_value 0 (nat_str n) = n.
Proof.
  destruct (digits_shape (S n) n EmptyString ltac:(lia)) as [D [E H]].
  unfold nat_str. rewrite E, str_app_nil. exact H.
Qed.

Lemma digit_run_seg (D : string) (c : ascii) (s : string) :
  all_chars is_digit D = true -> is_digit c = false ->
  digit_run (D ++ String c s) = (D, String c s).
Proof.
  intros HD Hc. induction D as [|x D IH]; cbn.
  - rewrite Hc. reflexivity.
  - cbn in HD. apply andb_true_iff in HD as [Hx HD]. rewrite Hx, (IH HD). reflexivity.
Qed.

Lemma search_unit_nondigit (u c : ascii) (s : string) :
  is_digit c = false -> search_unit u (String c s) = search_unit u s.
Proof. intro Hc. cbn. rewrite Hc. reflexivity. Qed.

Lemma search_unit_seg (u : ascii) (D : string) (c : ascii) (s : string) :
  all_chars is_digit D = true -> D <> EmptyString -> is_digit c = false ->
  search_unit u (D ++ String c s) =
  if Ascii.eqb c u then Some (decimal_value 0 D) else search_unit u s.
Proof.
  intros HD Hne Hc. induction D as [|x D IH]; [contradiction|].
  cbn [append search_unit].
  rewrite (digit_run_seg (String x D) c s HD Hc
             : digit_run (String x (D ++ String c s)) = (String x D, String c s)).
  cbn [str_truthy andb].
  destruct (Ascii.eqb c u) eqn:Ecu; [reflexivity|].
  cbn in HD. apply andb_true_iff in HD as [_ HD].
  destruct D as [|y D].
  - cbn [append]. apply search_unit_nondigit. exact Hc.
  - rewrite IH; [reflexivity|exact HD|discriminate].
Qed.

Lemma search_unit_opt_seg (u c : ascii) (o : option nat) (s : string) :
  is_digit c = false ->
  search_unit u (opt_seg o c ++ s) =
  match o with
  | Some n => if Ascii.eqb c u then Some n else search_unit u s
  | None => search_unit u s
  end.
Proof.
  intro Hc. destruct o as [n|]; [|reflexivity].
  destruct (nat_str_shape n) as (HD & Hne & Hv).
  unfold opt_seg. rewrite str_app_assoc. cbn [append].
  rewrite search_unit_seg by assumption. rewrite Hv. reflexivity.
Qed.

Lemma contains_app (needle a b : string) :
  contains needle b = true -> contains needle (a ++ b) = true.
Proof.
  intro H. induction a as [|c a IH]; cbn; [exact H|]. rewrite IH. apply orb_true_r.
Qed.

Lemma digit_run_app (s : string) : fst (digit_run s) ++ snd (digit_run s) = s.
Proof.
  induction s as [|c s IH]; cbn; [reflexivity|].
  destruct (is_digit c); [|reflexivity].
  destruct (digit_run s) as [d r]. cbn in *. rewrite IH. reflexivity.
Qed.

Lemma search_unit_contains (u : ascii) (s : string) (n : nat) :
  search_unit u s = Some n -> contains (String u EmptyString) s = true.
Proof.
  induction s as [|c s IH]; [discriminate|].
  cbn [search_unit].
  pose proof (digit_run_app (String c s)) as Happ.
  destruct (digit_run (String c s)) as [d r] eqn:E. cbn in Happ.
  destruct r as [|c' r'].
  - intro H. cbn [contains]. rewrite (IH H). apply orb_true_r.
  - destruct (str_truthy d && Ascii.eqb c' u) eqn:T.
    + intros _. apply andb_true_iff in T as [_ T]. apply Ascii.eqb_eq in T. subst c'.
      rewrite <- Happ. apply contains_app. cbn.
      destruct (Ascii.ascii_dec u u) as [_|Hne]; [destruct r'; reflexivity|contradiction].
    + intro H. cbn [contains]. rewrite (IH H). apply orb_true_r.
Qed.

Lemma component_search (u : ascii) (s : string) :
  component u s = match search_unit u s with Some n => n | None => 0 end.
Proof.
  unfold component.
  destruct (search_unit u s) as [n|] eqn:E.
  - rewrite (search_unit_contains u s n E). reflexivity.
  - destruct (contains _ s); reflexivity.
Qed.

Lemma all_chars_impl (p q : ascii -> bool) (s : string) :
  (forall c, p c = true -> q c = true) -> all_chars p s = true -> all_chars q s = true.
Proof.
  intros Hpq. induction s as [|c s IH]; cbn; [reflexivity|].
  intro H. apply andb_true_iff in H as [H1 H2]. rewrite (Hpq c H1), (IH H2). reflexivity.
Qed.

Definition not_P (c : ascii) : bool := negb (Ascii.eqb c "P").

Lemma remove_PT_no_P (s : string) :
  all_chars not_P s = true -> remove_all "PT" s = s.
Proof.
  unfold remove_all. induction s as [|c s IH]; [reflexivity|].
  cbn [all_chars]. intro H. apply andb_true_iff in H as [Hc Hs].
  cbn [remove_from].
  replace (String.prefix "PT" (String c s)) with false.
  - rewrite (IH Hs). reflexivity.
  - symmetry. cbn [String.prefix].
    destruct (Ascii.ascii_dec "P" c) as [<-|]; [vm_compute in Hc; discriminate Hc|reflexivity].
Qed.

Lemma opt_seg_no_P (o : option nat) (u : ascii) :
  not_P u = true -> all_chars not_P (opt_seg o u) = true.
Proof.
  intro Hu. destruct o as [n|]; [|reflexivity]. unfold opt_seg.
  rewrite all_chars_app. destruct (nat_str_shape n) as [HD _].
  rewrite (all_chars_impl is_digit not_P); [cbn; rewrite Hu; reflexivity| |exact HD].
  intros c Hc. unfold not_P. destruct (Ascii.eqb_spec c "P"); [subst; discriminate Hc|reflexivity].
Qed.

(** The time part [[nH][nM][nS]]. *)
Definition time_part (h m s : option nat) : string :=
  opt_seg h "H" ++ opt_seg m "M" ++ opt_seg s "S".

Lemma search_time_part (h m s : option nat) :
  search_unit "H" (time_part h m s) = h /\
  search_unit "M" (time_part h m s) = m /\
  search_unit "S" (time_part h m s) = s.
Proof.
  unfold time_part. rewrite <- (str_app_nil (opt_seg s "S")).
  rewrite !search_unit_opt_seg by reflexivity.
  destruct h, m, s; repeat split.
Qed.

Lemma remove_PT_iso (d h m s : option nat) :
  remove_all "PT" (iso_duration d h m s) =
  match d with
  | Some n => "P" ++ opt_seg (Some n) "D" ++ "T" ++ time_part h m s
  | None => time_part h m s
  end.
Proof.
  assert (HR : all_chars not_P (time_part h m s) = true).
  { unfold time_part. rewrite !all_chars_app, !opt_seg_no_P by reflexivity. reflexivity. }
  unfold iso_duration. fold (time_part h m s).
  destruct d as [n|].
  - destruct (nat_str_shape n) as (HD & Hne & _).
    unfold opt_seg. rewrite str_app_assoc.
    destruct (nat_str n) as [|x D] eqn:En; [contradiction|].
    cbn in HD. apply andb_true_iff in HD as [Hx HD].
    unfold remove_all. cbn [append remove_from].
    replace (String.prefix "PT" (String "P" (String x (D ++ String "D" (String "T" (time_part h m s))))))
      with false.
    + f_equal.
      change (remove_all "PT" (String x (D ++ String "D" (String "T" (time_part h m s))))
              = String x (D ++ String "D" (String "T" (time_part h m s)))).
      apply remove_PT_no_P.
      cbn [all_chars]. rewrite all_chars_app. cbn [all_chars]. rewrite HR.
      rewrite (all_chars_impl is_digit not_P D); [|intros c Hc|exact HD].
      * unfold not_P at 1. destruct (Ascii.eqb_spec x "P"); [subst; discriminate Hx|].
        reflexivity.
      * unfold not_P. destruct (Ascii.eqb_spec c "P"); [subst; discriminate Hc|reflexivity].
    + cbn [String.prefix].
      destruct (Ascii.ascii_dec "P" "P") as [_|C]; [|contradiction C; reflexivity].
      destruct (Ascii.ascii_dec "T" x) as [<-|]; [vm_compute in Hx; discriminate Hx|reflexivity].
  - unfold remove_all. cbn.
    replace (String.prefix "" (time_part h m s)) with true
      by (destruct (time_part h m s); reflexivity).
    change (remove_all "PT" (time_part h m s) = time_part h m s).
    apply remove_PT_no_P. exact HR.
Qed.

(** [parse_iso8601_duration] reads back the hours, minutes and seconds of a
    duration [P[nD]T[nH][nM][nS]] (a missing component counts 0), and
    ignores the day count: [P1DT2H] gives 7200 seconds. *)
Theorem parse_iso8601_duration_components (d h m s : option nat) :
  parse_iso8601_duration (iso_duration d h m s) = count h * 3600 + count m * 60 + count s.
Proof.
  unfold parse_iso8601_duration. rewrite remove_PT_iso.
  rewrite !component_search.
  destruct (search_time_part h m s) as (Hh & Hm & Hs).
  destruct d as [n|].
  - cbn [append]. rewrite !search_unit_nondigit by reflexivity.
    rewrite !search_unit_opt_seg by reflexivity. cbn [Ascii.eqb Bool.eqb].
    rewrite !search_unit_nondigit by reflexivity.
    rewrite Hh, Hm, Hs. destruct h, m, s; reflexivity.
  - rewrite Hh, Hm, Hs. destruct h, m, s; reflexivity.
Qed.

End IsoDurationProps.
